(** * A verification model of the SGD document intelligence pipeline

    Shallow embedding of the AI service of the repository
    (backend/ai-service): classification, NLP analysis, PDF extraction with
    per-page OCR fallback, retrieval-augmented chat and the orchestrator
    [process_document].

    Modelling conventions.
    - A Python [str] is a [String.string]: a sequence of code points, here
      the code points below 256 (one [ascii] each).  [str.lower] and
      [str.strip] are written out for that range, following Python's
      Unicode tables ([lower] maps A-Z and U+00C0..U+00DE except U+00D7;
      whitespace is U+0009..U+000D, U+001C..U+001F, U+0020, U+0085, U+00A0).
    - A Python [float] that only ever holds a ratio of small integers or a
      literal such as 0.1 is a rational [Q]; [min]/[max] are Python's
      (first argument kept on ties).
    - External services (the language model, the vector store, the document
      API, Tesseract, PyMuPDF, spaCy, Tika) are oracles collected in a record
      [env]; every call to them is logged in a trace, and each may raise.
    - A dict literal whose iteration order matters is an association list in
      insertion order. *)

From Stdlib Require Import String Ascii List ZArith QArith Lia Bool.
From Stdlib Require Import Permutation Sorted.
Import ListNotations.
Open Scope nat_scope.
Open Scope string_scope.

(* ------------------------------------------------------------------ *)
(** ** Python strings *)

Module PyStr.

Definition code (c : ascii) : nat := nat_of_ascii c.

(** [str.isspace] on a single code point below 256. *)
Definition is_space (c : ascii) : bool :=
  let n := code c in
  ((Nat.leb 9 n) && (Nat.leb n 13)) || ((Nat.leb 28 n) && (Nat.leb n 32))
  || (Nat.eqb n 133) || (Nat.eqb n 160).

(** [str.lower] on a single code point below 256. *)
Definition lower_char (c : ascii) : ascii :=
  let n := code c in
  if ((Nat.leb 65 n) && (Nat.leb n 90))
     || ((Nat.leb 192 n) && (Nat.leb n 222) && negb (Nat.eqb n 215))
  then ascii_of_nat (n + 32) else c.

Fixpoint lower (s : string) : string :=
  match s with
  | EmptyString => EmptyString
  | String c t => String (lower_char c) (lower t)
  end.

Fixpoint lstrip (s : string) : string :=
  match s with
  | EmptyString => EmptyString
  | String c t => if is_space c then lstrip t else s
  end.

Definition rev_str (s : string) : string :=
  string_of_list_ascii (rev (list_ascii_of_string s)).

Definition rstrip (s : string) : string := rev_str (lstrip (rev_str s)).

(** [str.strip()] *)
Definition strip (s : string) : string := rstrip (lstrip s).

Fixpoint startswith (pre s : string) : bool :=
  match pre, s with
  | EmptyString, _ => true
  | String c p, String d t => Ascii.eqb c d && startswith p t
  | String _ _, EmptyString => false
  end.

(** [needle in hay] for two strings: substring test. *)
Fixpoint contains (needle hay : string) : bool :=
  startswith needle hay ||
  match hay with
  | EmptyString => false
  | String _ t => contains needle t
  end.

(** [x in xs] for a list of strings. *)
Definition mem (x : string) (xs : list string) : bool :=
  existsb (String.eqb x) xs.

(** [f"{n}"] for a non-negative integer. *)
Fixpoint digits_fuel (fuel n : nat) (acc : string) : string :=
  match fuel with
  | O => acc
  | S f =>
      let d := String (ascii_of_nat (48 + n mod 10)) acc in
      if Nat.ltb n 10 then d else digits_fuel f (n / 10) d
  end.

Definition show_nat (n : nat) : string := digits_fuel (S n) n EmptyString.

(** [s[:n]] *)
Definition take (n : nat) (s : string) : string := substring 0 n s.

Definition nl : string := String (ascii_of_nat 10) EmptyString.

End PyStr.
Import PyStr.

(* ------------------------------------------------------------------ *)
(** ** Python floats used as ratios, and exceptions *)

(** Python's [min(a, b)]: [a] unless [b < a]. *)
Definition py_min (a b : Q) : Q := if Qle_bool a b then a else b.
(** Python's [max(a, b)]: [a] unless [b > a]. *)
Definition py_max (a b : Q) : Q := if Qle_bool b a then a else b.

Inductive exn :=
| ZeroDivisionError
| ValueError (msg : string)
| HTTPException (status_code : Z) (detail : string)
| ExternalError (msg : string).

Inductive outcome (A : Type) :=
| Ok (a : A)
| Raise (e : exn).
Arguments Ok {A} a.
Arguments Raise {A} e.

(** [a / b] on ints gives a float; [ZeroDivisionError] when [b = 0]. *)
Definition true_div (a b : Z) : outcome Q :=
  if Z.eqb b 0 then Raise ZeroDivisionError else Ok (inject_Z a / inject_Z b)%Q.

(* ------------------------------------------------------------------ *)
(** ** ClassificationService (services/classification_service.py) *)

Module Classification.

Record ClassificationResult := {
  category : string;
  confidence : Q;
  tags : list string
}.

(** The dict literal returned by [_create_rule_based_classifier], in its
    insertion order. *)
Definition create_rule_based_classifier : list (string * list string) := [
  ("contract", ["contract"; "agreement"; "terms"; "conditions"; "liability"; "clause"]);
  ("invoice", ["invoice"; "bill"; "payment"; "amount"; "total"; "due"; "tax"]);
  ("report", ["report"; "analysis"; "summary"; "findings"; "conclusion"; "data"]);
  ("correspondence", ["dear"; "sincerely"; "regards"; "letter"; "email"; "message"]);
  ("legal", ["legal"; "law"; "court"; "judge"; "attorney"; "lawsuit"; "litigation"]);
  ("financial", ["financial"; "budget"; "revenue"; "profit"; "expense"; "cost"]);
  ("technical", ["technical"; "specification"; "manual"; "guide"; "procedure"]);
  ("administrative", ["policy"; "procedure"; "memo"; "notice"; "announcement"]);
  ("hr", ["employee"; "salary"; "benefits"; "vacation"; "performance"; "hiring"]);
  ("marketing", ["marketing"; "campaign"; "promotion"; "advertising"; "brand"])
].

(** The [tag_keywords] dict literal of [_extract_tags]. *)
Definition tag_keywords : list (string * list string) := [
  ("urgent", ["urgent"; "asap"; "immediate"; "priority"]);
  ("confidential", ["confidential"; "private"; "restricted"; "sensitive"]);
  ("draft", ["draft"; "preliminary"; "version"; "v1"; "v2"]);
  ("final", ["final"; "approved"; "completed"; "signed"]);
  ("expired", ["expired"; "overdue"; "past due"]);
  ("pending", ["pending"; "awaiting"; "in progress"])
].

(** [sum(1 for keyword in keywords if keyword in text)] *)
Definition score (text : string) (keywords : list string) : nat :=
  length (filter (fun k => contains k text) keywords).

(** [max(scores.values())]; raises [ValueError] on an empty dict. *)
Definition max_value (scores : list (string * nat)) : outcome nat :=
  match scores with
  | [] => Raise (ValueError "max() arg is an empty sequence")
  | (_, v) :: rest => Ok (fold_left (fun m kv => Nat.max m (snd kv)) rest v)
  end.

(** [max(scores, key=scores.get)]: the first key whose value is maximal
    (the running best is replaced only by a strictly larger value). *)
Definition argmax_first (scores : list (string * nat)) : outcome string :=
  match scores with
  | [] => Raise (ValueError "max() arg is an empty sequence")
  | (k, v) :: rest =>
      Ok (fst (fold_left (fun best kv =>
                 if Nat.ltb (snd best) (snd kv) then kv else best) rest (k, v)))
  end.

(** [self.classifier[key]]: dict lookup. *)
Definition dict_get {V} (d : list (string * V)) (key : string) : outcome V :=
  match find (fun kv => String.eqb (fst kv) key) d with
  | Some (_, v) => Ok v
  | None => Raise (ExternalError "KeyError")
  end.

Definition bind {A B} (m : outcome A) (f : A -> outcome B) : outcome B :=
  match m with Ok a => f a | Raise e => Raise e end.

(** [_rule_based_classify]; [classifier] is [self.classifier]. *)
Definition rule_based_classify (classifier : list (string * list string))
    (text : string) : outcome (string * Q) :=
  let scores := map (fun ck => (fst ck, score text (snd ck))) classifier in
  bind (max_value scores) (fun m =>
  if Nat.eqb m 0 then Ok ("other", (1 # 10)%Q) else
  bind (argmax_first scores) (fun best_category =>
  bind (dict_get scores best_category) (fun s =>
  bind (dict_get classifier best_category) (fun kws =>
  bind (true_div (Z.of_nat s) (Z.of_nat (length kws))) (fun r =>
  let confidence := py_min r 1%Q in
  let confidence := py_max confidence (1 # 10) in
  Ok (best_category, confidence)))))).

(** [_extract_tags] *)
Definition extract_tags (text : string) : list string :=
  firstn 5 (map fst (filter (fun tk => existsb (fun k => contains k text) (snd tk))
                            tag_keywords)).

(** [classify_document]; [classifier] is the service state [self.classifier]:
    [None] before [initialize] (then [self.classifier.items()] raises), and
    [Some create_rule_based_classifier] after it.  Any exception is turned
    into the fallback result. *)
Definition classify_document (classifier : option (list (string * list string)))
    (text title : string) : ClassificationResult :=
  let combined_text := lower (title ++ " " ++ text) in
  let attempt :=
    match classifier with
    | None => Raise (ExternalError "AttributeError")
    | Some c => rule_based_classify c combined_text
    end in
  match attempt with
  | Ok (category, confidence) =>
      {| category := category; confidence := confidence;
         tags := extract_tags combined_text |}
  | Raise _ => {| category := "other"; confidence := (1 # 10)%Q; tags := [] |}
  end.

(** The service after [initialize]. *)
Definition classify (text title : string) : ClassificationResult :=
  classify_document (Some create_rule_based_classifier) text title.

(** [self.categories] of [ClassificationService.__init__]. *)
Definition categories : list string :=
  ["contract"; "invoice"; "report"; "correspondence"; "legal"; "financial";
   "technical"; "administrative"; "hr"; "marketing"; "other"].

End Classification.

(* ------------------------------------------------------------------ *)
(** ** External services, their calls and the effect monad *)

Module Effects.

Definition bytes := list Byte.byte.

(** An object of the Weaviate class "Document" as [index_document] writes
    it. *)
Record IndexedDocument := {
  idx_title : string;
  idx_content : string;
  idx_summary : string;
  idx_category : string;
  idx_tags : list string;
  idx_document_id : Z;
  idx_created_at : string
}.

(** A Weaviate search hit, a dict whose keys may be missing. *)
Record VDoc := {
  v_title : option string;
  v_content : option string;
  v_summary : option string;
  v_document_id : option Z
}.

(** The JSON bodies sent with [PUT /documents/{id}] by [process_document]. *)
Inductive DocumentUpdate :=
| UpdateProcessed (extracted_text summary : string)
    (entities : list (string * list string)) (classification : string)
    (classification_confidence : Q) (processed_at : string)
| UpdateError (processing_error : string).

Definition update_status (u : DocumentUpdate) : string :=
  match u with UpdateProcessed _ _ _ _ _ _ => "processed" | UpdateError _ => "error" end.

(** The JSON document returned by [GET /documents/{id}]. *)
Record ApiDocument := {
  doc_file_url : string;
  doc_content_type : string;
  doc_filename : string;
  doc_title : string;
  doc_tags : list string
}.

(** A PyMuPDF page: [page.get_text()] and [page.get_pixmap().tobytes("png")]. *)
Record PdfPage := {
  page_text : string;
  page_png : bytes
}.

(** spaCy output: entity spans [(ent.label_, ent.text)] and tokens. *)
Record Token := {
  tok_text : string;
  tok_lemma : string;
  tok_pos : string;
  tok_is_stop : bool;
  tok_is_punct : bool
}.

Record NlpDoc := {
  doc_ents : list (string * string);
  doc_tokens : list Token
}.

(** Every call to an external service, in the order it is made. *)
Inductive event :=
| ModelCall (system user : string) (max_tokens : Z) (temperature : Q)
| VectorQuery (concept : string) (doc_filter : option Z) (limit : Z)
| VectorCreate (obj : IndexedDocument)
| HttpGet (url : string)
| HttpPut (url : string) (payload : DocumentUpdate)
| PdfOpen (content : bytes)
| OcrCall (image : bytes)
| NlpCall (lang : string) (text : string)
| TikaCall (content : bytes)
| Utf8Decode (content : bytes).

(** The answers of the external services; each may raise. *)
Record env := {
  chat_completion : string -> string -> Z -> Q -> outcome string;
  vector_query : string -> option Z -> Z -> outcome (option (list VDoc));
  vector_create : IndexedDocument -> outcome unit;
  api_get_document : string -> outcome (Z * ApiDocument);
  file_get : string -> outcome (Z * bytes);
  api_put : string -> DocumentUpdate -> outcome unit;
  pdf_open : bytes -> outcome (list PdfPage);
  tesseract : bytes -> outcome string;
  spacy : string -> string -> outcome NlpDoc;
  tika : bytes -> outcome (option string);
  utf8_decode : bytes -> outcome string;
  uuid4 : string;
  utcnow : string;
  api_service_url : string
}.

(** Python code that may raise and calls external services: the trace of
    calls made so far is threaded through. *)
Definition M (A : Type) := list event -> outcome A * list event.

Definition ret {A} (a : A) : M A := fun tr => (Ok a, tr).
Definition raise {A} (e : exn) : M A := fun tr => (Raise e, tr).
Definition lift {A} (o : outcome A) : M A := fun tr => (o, tr).
Definition bind {A B} (m : M A) (f : A -> M B) : M B :=
  fun tr => match m tr with
            | (Ok a, tr') => f a tr'
            | (Raise e, tr') => (Raise e, tr')
            end.
(** An external call: it is recorded, then answers [r]. *)
Definition call {A} (ev : event) (r : outcome A) : M A :=
  fun tr => (r, tr ++ [ev])%list.
(** [try: m except Exception as e: handler(e)] *)
Definition try_except {A} (m : M A) (handler : exn -> M A) : M A :=
  fun tr => match m tr with
            | (Raise e, tr') => handler e tr'
            | r => r
            end.

Notation "x <- m ;; k" := (bind m (fun x => k))
  (at level 61, m at next level, right associativity).
Notation "m ;;; k" := (bind m (fun _ => k))
  (at level 61, right associativity).

End Effects.
Import Effects.

(* ------------------------------------------------------------------ *)
(** ** NLPService.generate_summary (services/nlp_service.py) *)

Module Summary.

Definition system_prompt : string :=
  "You are a helpful assistant that creates concise summaries of documents. Summarize the key points in a clear, professional manner.".

Definition failure_text : string := "Summary generation failed".

(** [generate_summary(text, max_tokens)] *)
Definition generate_summary (E : env) (text : string) (max_tokens : Z) : M string :=
  try_except
    (if String.eqb (strip text) "" then ret "" else
     let max_input_length := 3000 in
     let text := if Nat.ltb max_input_length (String.length text)
                 then take max_input_length text ++ "..." else text in
     let user := "Please summarize the following text:" ++ nl ++ nl ++ text in
     content <- call (ModelCall system_prompt user max_tokens (3 # 10)%Q)
                     (chat_completion E system_prompt user max_tokens (3 # 10)%Q) ;;
     ret (strip content))
    (fun _ => ret failure_text).

End Summary.

(* ------------------------------------------------------------------ *)
(** ** RAGService.chat (services/rag_service.py) *)

Module Rag.

Record Source := {
  src_document_id : option Z;
  src_title : string;
  src_excerpt : string;
  src_relevance : Q
}.

Record ChatResponse := {
  response : string;
  sources : list Source;
  confidence : Q;
  conversation_id : string;
  timestamp : string
}.

(** [d.get(key, default)] *)
Definition get_or (o : option string) (default : string) : string :=
  match o with Some v => v | None => default end.

(** [_search_relevant_documents]: a failed search gives [[]]. *)
Definition search_relevant_documents (E : env) (query : string)
    (document_id : option Z) (limit : Z) : M (list VDoc) :=
  try_except
    (let filter := match document_id with
                   | Some d => if Z.eqb d 0 then None else Some d
                   | None => None
                   end in
     result <- call (VectorQuery query filter limit) (vector_query E query filter limit) ;;
     ret (match result with Some docs => docs | None => [] end))
    (fun _ => ret []).

Definition no_documents : string := "No relevant documents found.".

(** ["\n\n".join(parts)] *)
Fixpoint join (sep : string) (parts : list string) : string :=
  match parts with
  | [] => ""
  | [p] => p
  | p :: rest => p ++ sep ++ join sep rest
  end.

Definition context_part (i : nat) (d : VDoc) : string :=
  let title := get_or (v_title d) "Unknown Document" in
  let content := get_or (v_content d) "" in
  let summary := get_or (v_summary d) "" in
  let text := if String.eqb summary "" then take 500 content else summary in
  "Document " ++ show_nat i ++ " - " ++ title ++ ":" ++ nl ++ text.

(** [_build_context] *)
Definition build_context (documents : list VDoc) : string :=
  match documents with
  | [] => no_documents
  | _ => join (nl ++ nl)
           (map (fun p => context_part (fst p) (snd p))
                (combine (seq 1 (length documents)) documents))
  end.

Definition system_prompt : string :=
  "You are an intelligent document assistant. You help users find information in their documents and answer questions based on the provided context. "
  ++ nl ++ nl ++ "Instructions:"
  ++ nl ++ "- Answer questions based only on the provided document context"
  ++ nl ++ "- If the context doesn't contain enough information, say so clearly"
  ++ nl ++ "- Provide specific references to documents when possible"
  ++ nl ++ "- Be concise but comprehensive"
  ++ nl ++ "- If asked about multiple documents, compare and synthesize the information"
  ++ nl.

Definition user_prompt (query context : string) : string :=
  "Context from documents:" ++ nl ++ context ++ nl ++ nl ++ "Question: " ++ query
  ++ nl ++ nl ++ "Please provide a helpful answer based on the document context above.".

Definition apology : string :=
  "I apologize, but I encountered an error while generating a response. Please try again.".

(** [_generate_response]: a failed completion gives the apology. *)
Definition generate_response (E : env) (query context : string) : M string :=
  try_except
    (let user := user_prompt query context in
     content <- call (ModelCall system_prompt user 500 (2 # 10)%Q)
                     (chat_completion E system_prompt user 500 (2 # 10)%Q) ;;
     ret (strip content))
    (fun _ => ret apology).

Definition to_source (d : VDoc) : Source :=
  {| src_document_id := v_document_id d;
     src_title := get_or (v_title d) "Unknown";
     src_excerpt := take 200 (get_or (v_content d) "") ++ "...";
     src_relevance := (8 # 10)%Q |}.

(** [chat(query, document_id, context_limit)]; its [except] re-raises. *)
Definition chat (E : env) (query : string) (document_id : option Z)
    (context_limit : Z) : M ChatResponse :=
  relevant_docs <- search_relevant_documents E query document_id context_limit ;;
  let context := build_context relevant_docs in
  response_text <- generate_response E query context ;;
  ratio <- lift (true_div (Z.of_nat (length relevant_docs)) context_limit) ;;
  let confidence := py_min ratio 1 in
  ret {| response := response_text;
         sources := map to_source relevant_docs;
         confidence := confidence;
         conversation_id := uuid4 E;
         timestamp := utcnow E |}.

End Rag.

(* ------------------------------------------------------------------ *)
(** ** OCRService (services/ocr_service.py) *)

Module Ocr.

(** [_ocr_image]: open, convert to RGB and run Tesseract ('eng+spa'); the
    whole pipeline is the [tesseract] service. *)
Definition ocr_image (E : env) (image : bytes) : M string :=
  text <- call (OcrCall image) (tesseract E image) ;;
  ret (strip text).

Definition ocr_header (n : nat) : string := "--- Page " ++ show_nat n ++ " (OCR) ---".
Definition text_header (n : nat) : string := "--- Page " ++ show_nat n ++ " ---".

(** The body of [for page_num in range(len(doc))], [page_num] being [n] and
    [text] the accumulated string. *)
Fixpoint pdf_pages_loop (E : env) (n : nat) (pages : list PdfPage) (text : string) : M string :=
  match pages with
  | [] => ret text
  | page :: rest =>
      let page_text := page_text page in
      if String.eqb (strip page_text) "" then
        ocr_text <- ocr_image E (page_png page) ;;
        pdf_pages_loop E (S n) rest
          (text ++ nl ++ ocr_header (n + 1) ++ nl ++ ocr_text ++ nl)
      else
        pdf_pages_loop E (S n) rest
          (text ++ nl ++ text_header (n + 1) ++ nl ++ page_text ++ nl)
  end.

(** [_extract_from_pdf]; its [except] logs and re-raises. *)
Definition extract_from_pdf (E : env) (pdf_content : bytes) : M string :=
  doc <- call (PdfOpen pdf_content) (pdf_open E pdf_content) ;;
  text <- pdf_pages_loop E 0 doc "" ;;
  ret (strip text).

(** [_extract_with_tika] (the temporary file is not modelled). *)
Definition extract_with_tika (E : env) (file_content : bytes) : M string :=
  parsed <- call (TikaCall file_content) (tika E file_content) ;;
  match parsed with
  | Some text => if String.eqb text "" then raise (ExternalError "No text extracted by Tika")
                 else ret (strip text)
  | None => raise (ExternalError "No text extracted by Tika")
  end.

(** [extract_text] *)
Definition extract_text (E : env) (file_content : bytes) (content_type filename : string)
    : M string :=
  if String.eqb content_type "application/pdf" then extract_from_pdf E file_content
  else if startswith "image/" content_type then ocr_image E file_content
  else if String.eqb content_type "text/plain" then
    call (Utf8Decode file_content) (utf8_decode E file_content)
  else extract_with_tika E file_content.

(** [""] joined: the concatenation of the per-page sections. *)
Definition concat_all (parts : list string) : string := fold_right String.append "" parts.

End Ocr.

(* ------------------------------------------------------------------ *)
(** ** NLPService.analyze_text (services/nlp_service.py) *)

Module Nlp.

Record NLPAnalysis := {
  entities : list (string * list string);
  language : string;
  sentiment : list (string * Q);
  keywords : list string
}.

(** [d[k]] on a dict as an association list (first binding). *)
Definition lookup {V} (d : list (string * V)) (k : string) : option V :=
  option_map snd (find (fun kv => String.eqb (fst kv) k) d).

(** [d[k] = v] for a key already in [d]. *)
Definition set {V} (d : list (string * V)) (k : string) (v : V) : list (string * V) :=
  map (fun kv => if String.eqb (fst kv) k then (k, v) else kv) d.

Definition has_key {V} (d : list (string * V)) (k : string) : bool :=
  existsb (fun kv => String.eqb (fst kv) k) d.

(** One iteration of the loop over [doc.ents] in [_extract_entities]. *)
Definition add_entity (entities : list (string * list string)) (ent : string * string)
    : list (string * list string) :=
  let entity_type := fst ent in
  let entity_text := strip (snd ent) in
  let entities := if has_key entities entity_type then entities
                  else (entities ++ [(entity_type, [])])%list in
  let current := match lookup entities entity_type with Some l => l | None => [] end in
  if mem entity_text current then entities
  else set entities entity_type (current ++ [entity_text])%list.

(** [_extract_entities] *)
Definition extract_entities (doc : NlpDoc) : list (string * list string) :=
  fold_left add_entity (doc_ents doc) [].

(** [Counter(tokens)]: counts in first-insertion order. *)
Definition counter_add (c : list (string * nat)) (x : string) : list (string * nat) :=
  match lookup c x with
  | Some n => set c x (S n)
  | None => (c ++ [(x, 1)])%list
  end.

Definition counter (xs : list string) : list (string * nat) := fold_left counter_add xs [].

(** [sorted(items, key=count, reverse=True)] is stable: an item goes after
    every item with a count at least as large. *)
Fixpoint insert_desc (x : string * nat) (l : list (string * nat)) : list (string * nat) :=
  match l with
  | [] => [x]
  | y :: r => if Nat.leb (snd x) (snd y) then y :: insert_desc x r else x :: l
  end.

Definition sort_desc (l : list (string * nat)) : list (string * nat) :=
  fold_left (fun acc x => insert_desc x acc) l [].

(** [Counter.most_common(n)] *)
Definition most_common (c : list (string * nat)) (n : nat) : list (string * nat) :=
  firstn n (sort_desc c).

Definition keyword_pos : list string := ["NOUN"; "PROPN"; "ADJ"].

(** [_extract_keywords(doc, limit)] *)
Definition extract_keywords (doc : NlpDoc) (limit : nat) : list string :=
  let filtered_tokens :=
    map (fun t => lower (tok_lemma t))
        (filter (fun t => mem (tok_pos t) keyword_pos && negb (tok_is_stop t)
                          && negb (tok_is_punct t) && Nat.ltb 2 (String.length (tok_text t)))
                (doc_tokens doc)) in
  map fst (most_common (counter filtered_tokens) limit).

Definition est_a : string := "est" ++ String (ascii_of_nat 225) "".

(** [_detect_language] (substring counts, as in the source). *)
Definition detect_language (text : string) : string :=
  let spanish_indicators := ["el"; "la"; "de"; "en"; "a"; "con"; "por"; "para"; "es"; est_a] in
  let english_indicators := ["the"; "and"; "of"; "to"; "a"; "in"; "for"; "is"; "on"; "that"] in
  let text_lower := lower text in
  let spanish_count := length (filter (fun w => contains w text_lower) spanish_indicators) in
  let english_count := length (filter (fun w => contains w text_lower) english_indicators) in
  if Nat.ltb english_count spanish_count then "es" else "en".

Definition placeholder_sentiment : list (string * Q) :=
  [("positive", 5 # 10); ("negative", 3 # 10); ("neutral", 2 # 10)]%Q.

(** [text[:1000000]] before the spaCy call. *)
Definition max_text_length : nat := 1000000.

(** [analyze_text]; its [except] logs and re-raises. *)
Definition analyze_text (E : env) (text : string) : M NLPAnalysis :=
  let language := detect_language text in
  let input := take max_text_length text in
  doc <- call (NlpCall language input) (spacy E language input) ;;
  ret {| entities := extract_entities doc;
         language := language;
         sentiment := placeholder_sentiment;
         keywords := extract_keywords doc 10 |}.

(** [filtered_tokens] of [_extract_keywords]: the lower-cased lemmas of the
    qualifying tokens, in document order. *)
Definition keyword_tokens (doc : NlpDoc) : list string :=
  map (fun t => lower (tok_lemma t))
      (filter (fun t => mem (tok_pos t) keyword_pos && negb (tok_is_stop t)
                        && negb (tok_is_punct t) && Nat.ltb 2 (String.length (tok_text t)))
              (doc_tokens doc)).

(** Modelled from the spec's words: "deduplicating exact surface-text
    matches within a type, preserving first-seen order" -- an item is kept
    when it was not seen earlier. *)
Fixpoint first_seen (seen : list string) (xs : list string) : list string :=
  match xs with
  | [] => []
  | x :: r => if mem x seen then first_seen seen r else x :: first_seen (x :: seen) r
  end.

(** The surface strings of the spans of type [label], in document order. *)
Definition texts_of (label : string) (ents : list (string * string)) : list string :=
  map (fun e => strip (snd e)) (filter (fun e => String.eqb (fst e) label) ents).

End Nlp.

(* ------------------------------------------------------------------ *)
(** ** The [/process/document] endpoint (main.py) *)

Module Pipeline.

(** [str(n)] for a Python int. *)
Definition show_Z (z : Z) : string :=
  match z with
  | Z.neg p => "-" ++ show_nat (Pos.to_nat p)
  | _ => show_nat (Z.to_nat z)
  end.

(** [f"{os.getenv('API_SERVICE_URL', ...)}/documents/{document_id}"] *)
Definition document_url (E : env) (document_id : Z) : string :=
  api_service_url E ++ "/documents/" ++ show_Z document_id.

(** [str(e)]; Starlette's [HTTPException] prints as ["code: detail"]. *)
Definition str_exn (e : exn) : string :=
  match e with
  | ZeroDivisionError => "division by zero"
  | ValueError msg => msg
  | HTTPException code detail => show_Z code ++ ": " ++ detail
  | ExternalError msg => msg
  end.

Record ProcessDocumentResponse := {
  resp_document_id : Z;
  resp_status : string;
  resp_extracted_text : string;
  resp_summary : string;
  resp_entities : list (string * list string);
  resp_classification : Classification.ClassificationResult
}.

(** [RAGService.index_document]: one object of class "Document" is created;
    its [except] re-raises. *)
Definition index_document (E : env) (document_id : Z)
    (title content summary category : string) (tags : list string) : M unit :=
  let document_object :=
    {| idx_title := title; idx_content := content; idx_summary := summary;
       idx_category := category; idx_tags := tags; idx_document_id := document_id;
       idx_created_at := utcnow E |} in
  call (VectorCreate document_object) (vector_create E document_object).

(** [process_document(request)]; [classifier] is the state of the
    classification service. *)
Definition process_document (E : env)
    (classifier : option (list (string * list string))) (document_id : Z)
    : M ProcessDocumentResponse :=
  let url := document_url E document_id in
  try_except
    (doc_response <- call (HttpGet url) (api_get_document E url) ;;
     let (doc_status, document) := doc_response in
     (if negb (Z.eqb doc_status 200)
      then raise (HTTPException 404 "Document not found") else ret tt) ;;;
     file_response <- call (HttpGet (doc_file_url document))
                           (file_get E (doc_file_url document)) ;;
     let (file_status, file_content) := file_response in
     (if negb (Z.eqb file_status 200)
      then raise (HTTPException 404 "Document file not found") else ret tt) ;;;
     extracted_text <- Ocr.extract_text E file_content (doc_content_type document)
                                        (doc_filename document) ;;
     nlp_analysis <- Nlp.analyze_text E extracted_text ;;
     let classification :=
       Classification.classify_document classifier extracted_text (doc_title document) in
     summary <- Summary.generate_summary E extracted_text 200 ;;
     let update_data :=
       UpdateProcessed extracted_text summary (Nlp.entities nlp_analysis)
         (Classification.category classification)
         (Classification.confidence classification) (utcnow E) in
     call (HttpPut url update_data) (api_put E url update_data) ;;;
     index_document E document_id (doc_title document) extracted_text summary
       (Classification.category classification) (doc_tags document) ;;;
     ret {| resp_document_id := document_id;
            resp_status := "completed";
            resp_extracted_text := extracted_text;
            resp_summary := summary;
            resp_entities := Nlp.entities nlp_analysis;
            resp_classification := classification |})
    (fun e =>
       let update_error := UpdateError (str_exn e) in
       try_except (call (HttpPut url update_error) (api_put E url update_error))
                  (fun _ => ret tt) ;;;
       raise (HTTPException 500 ("Document processing failed: " ++ str_exn e))).

End Pipeline.

(* ------------------------------------------------------------------ *)
(** ** The [/rag/chat] and [/analyze/text] endpoints (main.py) *)

Module Endpoints.
Import Pipeline.

(** [chat_with_documents(request)] *)
Definition chat_with_documents (E : env) (query : string) (document_id : option Z)
    (context_limit : Z) : M Rag.ChatResponse :=
  try_except (Rag.chat E query document_id context_limit)
    (fun e => raise (HTTPException 500 ("Chat failed: " ++ str_exn e))).

Record DocumentAnalysis := {
  an_extracted_text : string;
  an_summary : string;
  an_entities : list (string * list string);
  an_classification : Classification.ClassificationResult;
  an_language : string;
  an_sentiment : list (string * Q);
  an_timestamp : string
}.

(** [analyze_text(text)] of the [/analyze/text] endpoint; [classifier] is
    the state of the classification service. *)
Definition analyze_text (E : env) (classifier : option (list (string * list string)))
    (text : string) : M DocumentAnalysis :=
  try_except
    (nlp_analysis <- Nlp.analyze_text E text ;;
     let classification := Classification.classify_document classifier text "" in
     summary <- Summary.generate_summary E text 200 ;;
     ret {| an_extracted_text := text;
            an_summary := summary;
            an_entities := Nlp.entities nlp_analysis;
            an_classification := classification;
            an_language := Nlp.language nlp_analysis;
            an_sentiment := Nlp.sentiment nlp_analysis;
            an_timestamp := utcnow E |})
    (fun e => raise (HTTPException 500 ("Analysis failed: " ++ str_exn e))).

End Endpoints.

(* ------------------------------------------------------------------ *)
(** ** A concrete environment: every external service is unreachable *)

Module Fixtures.

Definition unavailable {A} : outcome A := Raise (ExternalError "connection refused").

Definition offline_env : env := {|
  chat_completion := fun _ _ _ _ => unavailable;
  vector_query := fun _ _ _ => unavailable;
  vector_create := fun _ => unavailable;
  api_get_document := fun _ => unavailable;
  file_get := fun _ => unavailable;
  api_put := fun _ _ => unavailable;
  pdf_open := fun _ => unavailable;
  tesseract := fun _ => unavailable;
  spacy := fun _ _ => unavailable;
  tika := fun _ => unavailable;
  utf8_decode := fun _ => unavailable;
  uuid4 := "00000000-0000-4000-8000-000000000000";
  utcnow := "2024-01-01T00:00:00";
  api_service_url := "http://localhost:8000"
|}.

(** The same environment, except that the vector store answers every query
    with [docs]. *)
Definition search_env (docs : list VDoc) : env := {|
  chat_completion := fun _ _ _ _ => unavailable;
  vector_query := fun _ _ _ => Ok (Some docs);
  vector_create := fun _ => unavailable;
  api_get_document := fun _ => unavailable;
  file_get := fun _ => unavailable;
  api_put := fun _ _ => unavailable;
  pdf_open := fun _ => unavailable;
  tesseract := fun _ => unavailable;
  spacy := fun _ _ => unavailable;
  tika := fun _ => unavailable;
  utf8_decode := fun _ => unavailable;
  uuid4 := "00000000-0000-4000-8000-000000000000";
  utcnow := "2024-01-01T00:00:00";
  api_service_url := "http://localhost:8000"
|}.

Definition sample_vdoc (n : Z) : VDoc :=
  {| v_title := Some "Report"; v_content := Some "Quarterly figures";
     v_summary := None; v_document_id := Some n |}.

(** A three-page PDF whose second page has no text layer; Tesseract reads
    "Scanned page" on any image. *)
Definition pdf_env : env := {|
  chat_completion := fun _ _ _ _ => unavailable;
  vector_query := fun _ _ _ => unavailable;
  vector_create := fun _ => unavailable;
  api_get_document := fun _ => unavailable;
  file_get := fun _ => unavailable;
  api_put := fun _ _ => unavailable;
  pdf_open := fun _ => Ok [ {| page_text := "Introduction" ++ nl; page_png := [Byte.x01] |};
                            {| page_text := " " ++ nl; page_png := [Byte.x02] |};
                            {| page_text := "Annex"; page_png := [Byte.x03] |} ];
  tesseract := fun _ => Ok ("Scanned page" ++ nl);
  spacy := fun _ _ => unavailable;
  tika := fun _ => unavailable;
  utf8_decode := fun _ => unavailable;
  uuid4 := "00000000-0000-4000-8000-000000000000";
  utcnow := "2024-01-01T00:00:00";
  api_service_url := "http://localhost:8000"
|}.

Definition noun (w : string) : Token :=
  {| tok_text := w; tok_lemma := w; tok_pos := "NOUN"; tok_is_stop := false;
     tok_is_punct := false |}.

(** spaCy finds five spans (two repeated) and thirteen nouns, twelve of
    them distinct. *)
Definition nlp_env : env := {|
  chat_completion := fun _ _ _ _ => unavailable;
  vector_query := fun _ _ _ => unavailable;
  vector_create := fun _ => unavailable;
  api_get_document := fun _ => unavailable;
  file_get := fun _ => unavailable;
  api_put := fun _ _ => unavailable;
  pdf_open := fun _ => unavailable;
  tesseract := fun _ => unavailable;
  spacy := fun _ _ =>
    Ok {| doc_ents := [("ORG", "Acme"); ("PERSON", " Ann "); ("ORG", "Acme");
                       ("PERSON", "Ann"); ("ORG", "Beta")];
          doc_tokens := map noun ["alpha"; "bravo"; "charlie"; "delta"; "echo"; "foxtrot";
                                  "golf"; "hotel"; "india"; "juliet"; "kilo"; "lima";
                                  "kilo"] |};
  tika := fun _ => unavailable;
  utf8_decode := fun _ => unavailable;
  uuid4 := "00000000-0000-4000-8000-000000000000";
  utcnow := "2024-01-01T00:00:00";
  api_service_url := "http://localhost:8000"
|}.

(** Every service answers: the document is a plain-text file. *)
Definition ok_env : env := {|
  chat_completion := fun _ _ _ _ => Ok "An invoice for payment.";
  vector_query := fun _ _ _ => Ok (Some []);
  vector_create := fun _ => Ok tt;
  api_get_document := fun _ =>
    Ok (200%Z, {| doc_file_url := "http://files/7.txt"; doc_content_type := "text/plain";
                  doc_filename := "7.txt"; doc_title := "Invoice";
                  doc_tags := ["finance"] |});
  file_get := fun _ => Ok (200%Z, [Byte.x41]);
  api_put := fun _ _ => Ok tt;
  pdf_open := fun _ => unavailable;
  tesseract := fun _ => unavailable;
  spacy := fun _ _ => Ok {| doc_ents := [("ORG", "Acme")]; doc_tokens := [noun "invoice"] |};
  tika := fun _ => unavailable;
  utf8_decode := fun _ => Ok "Invoice total amount due for payment";
  uuid4 := "00000000-0000-4000-8000-000000000000";
  utcnow := "2024-01-01T00:00:00";
  api_service_url := "http://localhost:8000"
|}.

(** Tika finds only blanks in the file. *)
Definition tika_env : env := {|
  chat_completion := fun _ _ _ _ => unavailable;
  vector_query := fun _ _ _ => unavailable;
  vector_create := fun _ => unavailable;
  api_get_document := fun _ => unavailable;
  file_get := fun _ => unavailable;
  api_put := fun _ _ => unavailable;
  pdf_open := fun _ => unavailable;
  tesseract := fun _ => unavailable;
  spacy := fun _ _ => unavailable;
  tika := fun _ => Ok (Some (" " ++ nl ++ " "));
  utf8_decode := fun _ => unavailable;
  uuid4 := "00000000-0000-4000-8000-000000000000";
  utcnow := "2024-01-01T00:00:00";
  api_service_url := "http://localhost:8000"
|}.

(** The document API answers 404 for every document. *)
Definition missing_env : env := {|
  chat_completion := fun _ _ _ _ => unavailable;
  vector_query := fun _ _ _ => unavailable;
  vector_create := fun _ => unavailable;
  api_get_document := fun _ =>
    Ok (404%Z, {| doc_file_url := ""; doc_content_type := ""; doc_filename := "";
                  doc_title := ""; doc_tags := [] |});
  file_get := fun _ => unavailable;
  api_put := fun _ _ => Ok tt;
  pdf_open := fun _ => unavailable;
  tesseract := fun _ => unavailable;
  spacy := fun _ _ => unavailable;
  tika := fun _ => unavailable;
  utf8_decode := fun _ => unavailable;
  uuid4 := "00000000-0000-4000-8000-000000000000";
  utcnow := "2024-01-01T00:00:00";
  api_service_url := "http://localhost:8000"
|}.

End Fixtures.

(* ================================================================== *)
(** * Properties *)

(** ** Classification *)

Module ClassificationFacts.
Import Classification.

Example classify_invoice_scenario :
  classify "Please review the attached invoice. Total amount due: $500, payment terms net 30." ""
  = {| category := "invoice"; confidence := (5 # 7)%Q; tags := [] |}.
Proof. vm_compute. reflexivity. Qed.

Lemma py_min_le_r (a b : Q) : (py_min a b <= b)%Q.
Proof.
  unfold py_min. destruct (Qle_bool a b) eqn:E.
  - apply Qle_bool_iff. exact E.
  - apply Qle_refl.
Qed.

Lemma py_max_ge_r (a b : Q) : (b <= py_max a b)%Q.
Proof.
  unfold py_max. destruct (Qle_bool b a) eqn:E.
  - apply Qle_bool_iff. exact E.
  - apply Qle_refl.
Qed.

Lemma py_max_le (a b c : Q) : (a <= c)%Q -> (b <= c)%Q -> (py_max a b <= c)%Q.
Proof. unfold py_max. destruct (Qle_bool b a); auto. Qed.

Lemma confidence_floor_bounds (r : Q) :
  (1 # 10 <= py_max (py_min r 1) (1 # 10) <= 1)%Q.
Proof.
  split.
  - apply py_max_ge_r.
  - apply py_max_le; [apply py_min_le_r | discriminate].
Qed.

Lemma score_le_length (t : string) (kws : list string) : score t kws <= length kws.
Proof.
  unfold score. induction kws as [|k ks IH]; simpl; [lia|].
  destruct (contains k t); simpl; lia.
Qed.

Lemma score_pos (t k : string) (kws : list string) :
  In k kws -> contains k t = true -> 1 <= score t kws.
Proof.
  intros Hin Hc. unfold score.
  assert (Hf : In k (filter (fun k => contains k t) kws)) by (apply filter_In; auto).
  destruct (filter _ kws); [contradiction | simpl; lia].
Qed.

Lemma fold_max_ge (rest : list (string * nat)) (v : nat) :
  v <= fold_left (fun m kv => Nat.max m (snd kv)) rest v /\
  (forall kv, In kv rest -> snd kv <= fold_left (fun m kv => Nat.max m (snd kv)) rest v).
Proof.
  revert v. induction rest as [|x rest IH]; intros v; simpl.
  - split; [lia | tauto].
  - destruct (IH (Nat.max v (snd x))) as [H1 H2]. split.
    + lia.
    + intros kv [<-|Hin]; [lia | auto].
Qed.

Lemma fold_max_zero (rest : list (string * nat)) (v : nat) :
  (forall kv, In kv rest -> snd kv = 0) ->
  fold_left (fun m kv => Nat.max m (snd kv)) rest v = v.
Proof.
  revert v. induction rest as [|x rest IH]; intros v H; simpl; [reflexivity|].
  rewrite (H x (or_introl eq_refl)), Nat.max_0_r. apply IH. intros; apply H; now right.
Qed.

(** The invariant of the loop of [max(scores, key=scores.get)]: the running
    best is at index [i], no entry is larger, and every earlier entry is
    strictly smaller. *)
Definition first_max_at (l : list (string * nat)) (i : nat) (best : string * nat) :=
  nth_error l i = Some best /\
  forall j kv, nth_error l j = Some kv -> snd kv <= snd best /\ (j < i -> snd kv < snd best).

Lemma fold_argmax (rest pre : list (string * nat)) (i : nat) (best : string * nat) :
  first_max_at pre i best ->
  exists i', first_max_at (pre ++ rest)%list i'
    (fold_left (fun best kv => if Nat.ltb (snd best) (snd kv) then kv else best) rest best).
Proof.
  revert pre i best. induction rest as [|x rest IH]; intros pre i best [Hi Hall]; simpl.
  - exists i. rewrite app_nil_r. split; auto.
  - replace (pre ++ x :: rest)%list with ((pre ++ [x]) ++ rest)%list
      by (rewrite <- app_assoc; reflexivity).
    assert (Hlt : i < length pre) by (apply nth_error_Some; congruence).
    destruct (Nat.ltb (snd best) (snd x)) eqn:E.
    + apply (IH _ (length pre)).
      apply Nat.ltb_lt in E. split.
      * rewrite nth_error_app2, Nat.sub_diag by lia. reflexivity.
      * intros j kv Hj. destruct (Nat.lt_ge_cases j (length pre)) as [Hj'|Hj'].
        -- rewrite nth_error_app1 in Hj by exact Hj'.
           destruct (Hall j kv Hj). lia.
        -- rewrite nth_error_app2 in Hj by exact Hj'.
           destruct (j - length pre) as [|m]; simpl in Hj.
           ++ injection Hj as <-. lia.
           ++ destruct m; discriminate.
    + apply (IH _ i).
      apply Nat.ltb_ge in E. split.
      * rewrite nth_error_app1 by exact Hlt. exact Hi.
      * intros j kv Hj. destruct (Nat.lt_ge_cases j (length pre)) as [Hj'|Hj'].
        -- rewrite nth_error_app1 in Hj by exact Hj'. auto.
        -- rewrite nth_error_app2 in Hj by exact Hj'.
           destruct (j - length pre) as [|m]; simpl in Hj.
           ++ injection Hj as <-. lia.
           ++ destruct m; discriminate.
Qed.

Lemma argmax_first_spec (kv0 : string * nat) (rest : list (string * nat)) :
  exists i best, first_max_at (kv0 :: rest) i best /\
                 argmax_first (kv0 :: rest) = Ok (fst best).
Proof.
  assert (H0 : first_max_at [kv0] 0 kv0).
  { split; [reflexivity|]. intros j kv Hj.
    destruct j as [|j]; simpl in Hj; [injection Hj as <-; lia | destruct j; discriminate]. }
  destruct (fold_argmax rest [kv0] 0 kv0 H0) as [i Hi].
  exists i. eexists. split; [exact Hi|]. destruct kv0. reflexivity.
Qed.

Lemma dict_get_nodup {V} (l : list (string * V)) (i : nat) (k : string) (v : V) :
  NoDup (map fst l) -> nth_error l i = Some (k, v) -> dict_get l k = Ok v.
Proof.
  unfold dict_get. revert i. induction l as [|[k0 v0] l IH]; intros i Hnd Hi.
  - destruct i; discriminate.
  - inversion Hnd as [|x y Hnotin Hnd']; subst. simpl.
    destruct i as [|i]; simpl in Hi.
    + injection Hi as -> ->. rewrite String.eqb_refl. reflexivity.
    + destruct (String.eqb_spec k0 k) as [->|Hne].
      * exfalso. apply Hnotin. apply nth_error_In in Hi.
        apply (in_map fst) in Hi. exact Hi.
      * exact (IH i Hnd' Hi).
Qed.

Lemma nth_error_scores (c : list (string * list string)) (t : string) (i : nat) kv :
  nth_error (map (fun ck => (fst ck, score t (snd ck))) c) i = Some kv ->
  exists cat kws, nth_error c i = Some (cat, kws) /\ kv = (cat, score t kws).
Proof.
  rewrite nth_error_map. destruct (nth_error c i) as [[cat kws]|]; simpl; intros H.
  - injection H as <-. eauto.
  - discriminate.
Qed.

(** A hit of some category forces the rule-based branch: the winner is the
    first category with the largest score, and the confidence is the
    clamped ratio of its score to the size of its keyword list. *)
Lemma rule_based_classify_hit (c : list (string * list string)) (t : string) :
  NoDup (map fst c) ->
  (exists cat kws k, In (cat, kws) c /\ In k kws /\ contains k t = true) ->
  exists i cat kws,
    nth_error c i = Some (cat, kws) /\
    (forall j cat' kws', nth_error c j = Some (cat', kws') ->
       score t kws' <= score t kws /\ (j < i -> score t kws' < score t kws)) /\
    rule_based_classify c t =
      Ok (cat, py_max (py_min (inject_Z (Z.of_nat (score t kws))
                               / inject_Z (Z.of_nat (length kws))) 1) (1 # 10))%Q.
Proof.
  intros Hnd (hc & hk & k & Hin & Hk & Hc).
  pose proof (score_pos t k hk Hk Hc) as Hpos.
  destruct c as [|ck0 c']; [contradiction|].
  set (f := fun ck : string * list string => (fst ck, score t (snd ck))).
  destruct (argmax_first_spec (f ck0) (map f c')) as (i & best & [Hbi Hball] & Harg).
  destruct (nth_error_scores (ck0 :: c') t i best Hbi) as (cat & kws & Hci & ->).
  apply In_nth_error in Hin as [ih Hih].
  assert (Hhit : score t hk <= score t kws).
  { assert (Hs : nth_error (map f (ck0 :: c')) ih = Some (hc, score t hk))
      by (rewrite nth_error_map, Hih; reflexivity).
    exact (proj1 (Hball ih _ Hs)). }
  exists i, cat, kws. split; [exact Hci|]. split.
  - intros j cat' kws' Hj.
    assert (Hs : nth_error (map f (ck0 :: c')) j = Some (cat', score t kws'))
      by (rewrite nth_error_map, Hj; reflexivity).
    exact (Hball j _ Hs).
  - unfold rule_based_classify. fold f. cbv zeta.
    change (map f (ck0 :: c')) with (f ck0 :: map f c') in *.
    destruct (fold_max_ge (map f c') (snd (f ck0))) as [Hm1 Hm2].
    assert (Hmpos : Nat.eqb (fold_left (fun m kv => Nat.max m (snd kv)) (map f c') (snd (f ck0))) 0 = false).
    { apply Nat.eqb_neq. destruct ih as [|ih]; simpl in Hih.
      - injection Hih as ->. unfold f in Hm1 |- *. simpl in Hm1 |- *. lia.
      - assert (Hin' : In (f (hc, hk)) (map f c'))
          by (apply in_map; apply nth_error_In with ih; exact Hih).
        specialize (Hm2 _ Hin'). unfold f in Hm2 |- *. simpl in Hm2 |- *. lia. }
    unfold max_value. destruct (f ck0) as [k0 v0] eqn:Ef. try rewrite Ef in Harg; try rewrite Ef in Hbi. simpl in Hmpos |- *.
    rewrite Hmpos. simpl. simpl in Harg. injection Harg as Harg. rewrite Harg.
    assert (Hnd' : NoDup (map fst (f ck0 :: map f c'))).
    { simpl. rewrite map_map. unfold f. simpl.
      replace (fun x : string * list string => fst x) with (@fst string (list string))
        by reflexivity. exact Hnd. }
    rewrite Ef in Hnd'.
    rewrite (dict_get_nodup _ i cat (score t kws) Hnd' Hbi). simpl.
    rewrite (dict_get_nodup _ i cat kws Hnd Hci). simpl.
    unfold true_div.
    pose proof (score_le_length t kws) as Hle.
    destruct (Z.eqb_spec (Z.of_nat (length kws)) 0) as [Hz|Hz]; [lia|].
    reflexivity.
Qed.

Lemma score_zero (t : string) (kws : list string) :
  (forall k, In k kws -> contains k t = false) -> score t kws = 0.
Proof.
  unfold score. induction kws as [|k ks IH]; intros H; simpl; [reflexivity|].
  rewrite (H k (or_introl eq_refl)). apply IH. intros; apply H; now right.
Qed.

Lemma rule_based_classify_no_hit (c : list (string * list string)) (t : string) :
  c <> [] ->
  (forall cat kws k, In (cat, kws) c -> In k kws -> contains k t = false) ->
  rule_based_classify c t = Ok ("other", 1 # 10)%Q.
Proof.
  intros Hne H. destruct c as [|[c0 kws0] c']; [congruence|].
  unfold rule_based_classify, max_value. cbv zeta. cbn [map fst snd].
  rewrite fold_max_zero.
  - rewrite (score_zero t kws0) by (intros k; apply (H c0); now left). reflexivity.
  - intros kv Hkv. apply in_map_iff in Hkv as ([cat kws] & <- & Hin).
    simpl. apply score_zero. intros k. apply (H cat). now right.
Qed.

Lemma classifier_keys_nodup : NoDup (map fst create_rule_based_classifier).
Proof. simpl. repeat constructor; simpl; intuition discriminate. Qed.

Lemma extract_tags_nil_iff (t : string) :
  extract_tags t = [] <->
  (forall tag kws k, In (tag, kws) tag_keywords -> In k kws -> contains k t = false).
Proof.
  unfold extract_tags.
  destruct (filter _ tag_keywords) as [|x l] eqn:Ef; simpl.
  - split; [intros _|reflexivity]. intros tag kws k Hin Hk.
    destruct (contains k t) eqn:Hc; [|reflexivity]. exfalso.
    assert (Hx : In (tag, kws) (filter (fun tk => existsb (fun k => contains k t) (snd tk)) tag_keywords)).
    { apply filter_In. split; [exact Hin|]. apply existsb_exists. eauto. }
    rewrite Ef in Hx. exact Hx.
  - split; [discriminate|]. intros H. exfalso.
    assert (Hx : In x (filter (fun tk => existsb (fun k => contains k t) (snd tk)) tag_keywords))
      by (rewrite Ef; now left).
    apply filter_In in Hx as [Hin Hex]. apply existsb_exists in Hex as (k & Hk & Hc).
    destruct x as [tag kws]. rewrite (H tag kws k Hin Hk) in Hc. discriminate.
Qed.

(** A boolean form of "no category keyword occurs", to discharge the
    hypothesis of the theorems below on concrete texts. *)
Definition no_category_hit (t : string) : bool :=
  forallb (fun ck => forallb (fun k => negb (contains k t)) (snd ck)) create_rule_based_classifier.

Lemma no_category_hit_sound (t : string) :
  no_category_hit t = true ->
  forall cat kws k, In (cat, kws) create_rule_based_classifier -> In k kws -> contains k t = false.
Proof.
  unfold no_category_hit. intros H cat kws k Hin Hk.
  rewrite forallb_forall in H. specialize (H _ Hin). simpl in H.
  rewrite forallb_forall in H. specialize (H _ Hk). now apply negb_true_iff.
Qed.

End ClassificationFacts.

Module ClassifyTheorems.
Import Classification ClassificationFacts.

(** C1 (as stated, refuted): the text ["urgent"] with an empty title has no
    category keyword, yet [classify] returns the tag ["urgent"]; the tag
    list is not empty. *)
Lemma classify_no_match_tags_not_empty :
  (forall cat kws k, In (cat, kws) create_rule_based_classifier -> In k kws ->
     contains k (lower ("" ++ " " ++ "urgent")) = false) /\
  classify "urgent" "" = {| category := "other"; confidence := (1 # 10)%Q; tags := ["urgent"] |} /\
  tags (classify "urgent" "") <> [].
Proof.
  split; [apply no_category_hit_sound; vm_compute; reflexivity|].
  split; [vm_compute; reflexivity | vm_compute; discriminate].
Qed.

(** C1 (amended): when no keyword of any category occurs in the lower-cased
    title-plus-text, [classify] returns category "other" with confidence 0.1,
    and its tags are those of the tag table found in the same text; they are
    empty exactly when no tag keyword occurs either. *)
Theorem classify_no_category_match (text title : string) :
  let t := lower (title ++ " " ++ text) in
  (forall cat kws k, In (cat, kws) create_rule_based_classifier -> In k kws ->
     contains k t = false) ->
  classify text title = {| category := "other"; confidence := (1 # 10)%Q; tags := extract_tags t |} /\
  (tags (classify text title) = [] <->
   forall tag kws k, In (tag, kws) tag_keywords -> In k kws -> contains k t = false).
Proof.
  intros t H.
  assert (Hc : classify text title =
               {| category := "other"; confidence := (1 # 10)%Q; tags := extract_tags t |}).
  { unfold classify, classify_document. fold t.
    rewrite rule_based_classify_no_hit by (discriminate || exact H). reflexivity. }
  split; [exact Hc|]. rewrite Hc. simpl. apply extract_tags_nil_iff.
Qed.

Lemma classify_no_category_match_witness :
  classify "hello world" "" = {| category := "other"; confidence := (1 # 10)%Q; tags := [] |}.
Proof.
  destruct (classify_no_category_match "hello world" "") as [H _].
  - apply no_category_hit_sound. vm_compute. reflexivity.
  - rewrite H. vm_compute. reflexivity.
Defined.

(** C3: when some category keyword occurs in the lower-cased title-plus-text,
    [classify] returns the category at the first position [i] of the table
    whose score is maximal (every category scores at most as much, every
    earlier one strictly less), with confidence
    [max(min(score / len(keywords), 1.0), 0.1)]. *)
Theorem classify_first_highest_score (text title : string) :
  let t := lower (title ++ " " ++ text) in
  (exists cat kws k, In (cat, kws) create_rule_based_classifier /\ In k kws /\ contains k t = true) ->
  exists i kws,
    nth_error create_rule_based_classifier i = Some (category (classify text title), kws) /\
    (forall j cat' kws', nth_error create_rule_based_classifier j = Some (cat', kws') ->
       score t kws' <= score t kws /\ (j < i -> score t kws' < score t kws)) /\
    confidence (classify text title) =
      py_max (py_min (inject_Z (Z.of_nat (score t kws))
                      / inject_Z (Z.of_nat (length kws))) 1) (1 # 10).
Proof.
  intros t Hhit.
  destruct (rule_based_classify_hit create_rule_based_classifier t classifier_keys_nodup Hhit)
    as (i & cat & kws & Hi & Hbest & Hr).
  exists i, kws.
  unfold classify, classify_document. fold t. rewrite Hr. simpl.
  split; [exact Hi|]. split; [exact Hbest | reflexivity].
Qed.

Lemma classify_first_highest_score_witness :
  let t := lower ("" ++ " " ++ "The contract terms: pay the invoice total") in
  exists i kws,
    nth_error create_rule_based_classifier i =
      Some (category (classify "The contract terms: pay the invoice total" ""), kws) /\
    (forall j cat' kws', nth_error create_rule_based_classifier j = Some (cat', kws') ->
       score t kws' <= score t kws /\ (j < i -> score t kws' < score t kws)) /\
    confidence (classify "The contract terms: pay the invoice total" "") =
      py_max (py_min (inject_Z (Z.of_nat (score t kws))
                      / inject_Z (Z.of_nat (length kws))) 1) (1 # 10).
Proof.
  apply (classify_first_highest_score "The contract terms: pay the invoice total" "").
  exists "contract", ["contract"; "agreement"; "terms"; "conditions"; "liability"; "clause"], "terms".
  split; [left; reflexivity|]. split; [simpl; tauto | vm_compute; reflexivity].
Defined.

(** C4: on every path of [classify_document] -- zero matches, at least one
    match, and the exception fallback (service not initialised, or any
    keyword table) -- the confidence lies in [0.1, 1.0]. *)
Theorem classify_confidence_bounds
    (classifier : option (list (string * list string))) (text title : string) :
  (1 # 10 <= confidence (classify_document classifier text title) <= 1)%Q.
Proof.
  unfold classify_document.
  destruct classifier as [c|]; simpl; [|split; discriminate].
  unfold rule_based_classify. cbv zeta.
  destruct (max_value _) as [m|e]; simpl; [|split; discriminate].
  destruct (Nat.eqb m 0); simpl; [split; discriminate|].
  destruct (argmax_first _) as [b|e]; simpl; [|split; discriminate].
  destruct (dict_get _ b) as [s|e]; simpl; [|split; discriminate].
  destruct (dict_get c b) as [kws|e]; simpl; [|split; discriminate].
  destruct (true_div _ _) as [r|e]; simpl; [|split; discriminate].
  apply confidence_floor_bounds.
Qed.

End ClassifyTheorems.

(** ** Summarisation *)

Module SummaryFacts.
Import Summary.

(** C8: [summarize("")] returns [""] and makes no call: the trace is
    unchanged, so the language model is not invoked. *)
Theorem generate_summary_empty (E : env) (max_tokens : Z) (tr : list event) :
  generate_summary E "" max_tokens tr = (Ok "", tr).
Proof. reflexivity. Qed.

Lemma lstrip_all_space (s : string) :
  Forall (fun c => is_space c = true) (list_ascii_of_string s) -> lstrip s = "".
Proof.
  induction s as [|c s IH]; simpl; intros H; [reflexivity|].
  inversion H as [|x l Hc Hs]; subst. rewrite Hc. exact (IH Hs).
Qed.

(** C10: for every text made only of whitespace, [generate_summary] returns
    [""] without any call: the guard tests [text.strip()]. *)
Theorem generate_summary_whitespace (E : env) (text : string) (max_tokens : Z)
    (tr : list event) :
  Forall (fun c => is_space c = true) (list_ascii_of_string text) ->
  generate_summary E text max_tokens tr = (Ok "", tr).
Proof.
  intros H. unfold generate_summary, try_except.
  unfold strip. rewrite (lstrip_all_space text H). reflexivity.
Qed.

Lemma generate_summary_whitespace_witness :
  generate_summary Fixtures.offline_env (" " ++ nl ++ String (ascii_of_nat 9) " ") 200 []
  = (Ok "", []).
Proof.
  apply generate_summary_whitespace. vm_compute.
  repeat constructor.
Defined.

(** A non-blank text does reach the model (here it fails, and the failure
    text is returned). *)
Example generate_summary_calls_model :
  fst (generate_summary Fixtures.offline_env "x" 200 []) = Ok failure_text /\
  snd (generate_summary Fixtures.offline_env "x" 200 []) =
    [ModelCall system_prompt ("Please summarize the following text:" ++ nl ++ nl ++ "x") 200 (3 # 10)%Q].
Proof. split; reflexivity. Qed.

End SummaryFacts.

(** ** Retrieval-augmented chat *)

Module RagFacts.
Import Rag.

Lemma search_never_raises (E : env) (q : string) (d : option Z) (lim : Z) (tr : list event) :
  exists docs tr', search_relevant_documents E q d lim tr = (Ok docs, tr').
Proof.
  unfold search_relevant_documents, try_except, bind, call, ret.
  destruct (vector_query E _ _ _); eauto.
Qed.

Lemma search_failure_empty (E : env) (q : string) (d : option Z) (lim : Z) (tr : list event) e :
  (forall c f l, vector_query E c f l = Raise e) ->
  fst (search_relevant_documents E q d lim tr) = Ok [].
Proof.
  intros H. unfold search_relevant_documents, try_except, bind, call, ret.
  rewrite H. reflexivity.
Qed.

Lemma generate_response_never_raises (E : env) (q c : string) (tr : list event) :
  exists s, generate_response E q c tr =
            (Ok s, tr ++ [ModelCall system_prompt (user_prompt q c) 500 (2 # 10)%Q])%list /\
            (forall e, chat_completion E system_prompt (user_prompt q c) 500 (2 # 10)%Q = Raise e ->
                       s = apology).
Proof.
  unfold generate_response, try_except, bind, call, ret. cbv zeta.
  destruct (chat_completion E _ _ _ _) as [a|e0] eqn:Hc.
  - exists (strip a). split; [reflexivity|]. intros e He. congruence.
  - exists apology. split; reflexivity.
Qed.

(** The chat run, step by step: whatever the services answer, the search
    and the generation give values, and the run fails only on the
    division [len(relevant_docs) / context_limit]. *)
Lemma chat_unfold (E : env) (q : string) (d : option Z) (lim : Z) (tr : list event) :
  exists docs tr1 s,
    search_relevant_documents E q d lim tr = (Ok docs, tr1) /\
    generate_response E q (build_context docs) tr1 =
      (Ok s, tr1 ++ [ModelCall system_prompt (user_prompt q (build_context docs)) 500 (2 # 10)%Q])%list /\
    chat E q d lim tr =
      (match true_div (Z.of_nat (length docs)) lim with
       | Ok ratio =>
           Ok {| response := s; sources := map to_source docs;
                 confidence := py_min ratio 1; conversation_id := uuid4 E;
                 timestamp := utcnow E |}
       | Raise e => Raise e
       end,
       tr1 ++ [ModelCall system_prompt (user_prompt q (build_context docs)) 500 (2 # 10)%Q])%list.
Proof.
  destruct (search_never_raises E q d lim tr) as (docs & tr1 & Hs).
  destruct (generate_response_never_raises E q (build_context docs) tr1) as (s & Hg & _).
  exists docs, tr1, s. split; [exact Hs|]. split; [exact Hg|].
  unfold chat, bind at 1. rewrite Hs. unfold bind at 1. rewrite Hg.
  unfold bind, lift, ret. destruct (true_div _ _); reflexivity.
Qed.

Lemma py_min_zero_ratio (lim : Z) : (py_min (inject_Z 0 / inject_Z lim) 1 == 0)%Q.
Proof.
  unfold py_min, Qdiv.
  destruct (Qle_bool _ 1) eqn:Hb.
  - apply Qmult_0_l.
  - exfalso. assert (Hle : (inject_Z 0 * / inject_Z lim <= 1)%Q)
      by (change (inject_Z 0) with 0%Q; rewrite Qmult_0_l; discriminate).
    apply Qle_bool_iff in Hle. congruence.
Qed.

(** C5: the confidence of every answer is
    [min(len(relevant_docs) / context_limit, 1.0)], the number of retrieved
    documents being the number of sources; with no document it is 0 and
    the model is called with the context "No relevant documents found.". *)
Theorem chat_confidence_ratio (E : env) (q : string) (d : option Z) (lim : Z)
    (tr tr' : list event) (r : ChatResponse) :
  chat E q d lim tr = (Ok r, tr') ->
  confidence r = py_min (inject_Z (Z.of_nat (length (sources r))) / inject_Z lim) 1 /\
  (sources r = [] ->
     (confidence r == 0)%Q /\
     In (ModelCall system_prompt (user_prompt q no_documents) 500 (2 # 10)%Q) tr').
Proof.
  intros H.
  destruct (chat_unfold E q d lim tr) as (docs & tr1 & s & _ & _ & Hc).
  rewrite Hc in H. unfold true_div in H.
  destruct (Z.eqb lim 0); [discriminate|].
  injection H as <- <-. simpl. rewrite length_map. split; [reflexivity|].
  intros Hnil. apply map_eq_nil in Hnil. subst docs. simpl. split.
  - apply py_min_zero_ratio.
  - apply in_or_app. right. left. reflexivity.
Qed.

Lemma chat_confidence_ratio_witness :
  match chat (Fixtures.search_env (map Fixtures.sample_vdoc [1; 2; 3]%Z)) "q" None 5 [] with
  | (Ok r, _) =>
      confidence r = py_min (inject_Z (Z.of_nat (length (sources r))) / inject_Z 5) 1 /\
      length (sources r) = 3 /\ (confidence r == 3 # 5)%Q
  | (Raise _, _) => False
  end.
Proof.
  destruct (chat _ "q" None 5 []) as [[r|e] tr'] eqn:H.
  - split; [exact (proj1 (chat_confidence_ratio _ _ _ _ _ _ _ H))|].
    vm_compute in H. injection H as <- _. split; reflexivity.
  - vm_compute in H. discriminate.
Defined.

(** Chat answers whenever [context_limit] is not 0. *)
Lemma chat_answers (E : env) (q : string) (d : option Z) (lim : Z) (tr : list event) :
  lim <> 0%Z -> exists r tr', chat E q d lim tr = (Ok r, tr').
Proof.
  intros Hl. destruct (chat_unfold E q d lim tr) as (docs & tr1 & s & _ & _ & Hc).
  rewrite Hc. unfold true_div. destruct (Z.eqb_spec lim 0); [contradiction|]. eauto.
Qed.

(** With both services failing and [context_limit <> 0], the answer is the
    apology, without sources, with confidence 0. *)
Lemma chat_degrades_on_failures (E : env) (q : string) (d : option Z) (lim : Z)
    (tr : list event) e1 e2 :
  (forall c f l, vector_query E c f l = Raise e1) ->
  (forall sys user mt temp, chat_completion E sys user mt temp = Raise e2) ->
  lim <> 0%Z ->
  exists r tr', chat E q d lim tr = (Ok r, tr') /\
    response r = apology /\ sources r = [] /\ (confidence r == 0)%Q.
Proof.
  intros Hv Hm Hl.
  destruct (chat_unfold E q d lim tr) as (docs & tr1 & s & Hs & Hg & Hc).
  assert (Hd : docs = []).
  { pose proof (search_failure_empty E q d lim tr e1 Hv) as He. rewrite Hs in He.
    simpl in He. congruence. }
  subst docs.
  destruct (generate_response_never_raises E q (build_context []) tr1) as (s' & Hg' & Hap).
  rewrite Hg in Hg'. injection Hg' as <-.
  rewrite Hc. unfold true_div. destruct (Z.eqb_spec lim 0); [contradiction|].
  do 2 eexists. split; [reflexivity|]. simpl. split; [|split; [reflexivity|]].
  - apply (Hap e2). apply Hm.
  - apply py_min_zero_ratio.
Qed.

(** C6 (code bug): [ChatRequest.context_limit] is only bounded above
    ([le=10]), so 0 is accepted; with the vector store and the model both
    failing, the chat does not answer but raises [ZeroDivisionError] at
    [len(relevant_docs) / context_limit], after both failures were absorbed. *)
Theorem chat_zero_limit_raises :
  chat Fixtures.offline_env "q" None 0 [] =
    (Raise ZeroDivisionError,
     [VectorQuery "q" None 0;
      ModelCall system_prompt (user_prompt "q" no_documents) 500 (2 # 10)%Q]).
Proof. reflexivity. Qed.

End RagFacts.

(** ** String lemmas *)

Module StrFacts.

Lemma append_assoc (a b c : string) : (a ++ b) ++ c = a ++ (b ++ c).
Proof. induction a as [|x a IH]; simpl; [reflexivity|now rewrite IH]. Qed.

Lemma append_empty_r (a : string) : a ++ "" = a.
Proof. induction a as [|x a IH]; simpl; [reflexivity|now rewrite IH]. Qed.

Lemma list_ascii_of_string_app (a b : string) :
  list_ascii_of_string (a ++ b) = (list_ascii_of_string a ++ list_ascii_of_string b)%list.
Proof. induction a as [|x a IH]; simpl; [reflexivity|now rewrite IH]. Qed.

Lemma string_of_list_ascii_app (a b : list ascii) :
  string_of_list_ascii (a ++ b) = string_of_list_ascii a ++ string_of_list_ascii b.
Proof. induction a as [|x a IH]; simpl; [reflexivity|now rewrite IH]. Qed.

Lemma rev_str_app (a b : string) : rev_str (a ++ b) = rev_str b ++ rev_str a.
Proof.
  unfold rev_str. rewrite list_ascii_of_string_app, rev_app_distr.
  apply string_of_list_ascii_app.
Qed.

Lemma rev_str_involutive (a : string) : rev_str (rev_str a) = a.
Proof.
  unfold rev_str. rewrite list_ascii_of_string_of_list_ascii, rev_involutive.
  apply string_of_list_ascii_of_string.
Qed.

Lemma startswith_app (n suf : string) : startswith n (n ++ suf) = true.
Proof.
  induction n as [|c n IH]; simpl; [reflexivity|].
  rewrite Ascii.eqb_refl. exact IH.
Qed.

Lemma contains_app (pre n suf : string) : contains n (pre ++ n ++ suf) = true.
Proof.
  induction pre as [|c pre IH]; simpl.
  - destruct n as [|c n]; [destruct suf; reflexivity|].
    simpl. rewrite Ascii.eqb_refl, startswith_app. reflexivity.
  - rewrite IH, orb_true_r. reflexivity.
Qed.

Lemma startswith_sound (n h : string) :
  startswith n h = true -> exists suf, h = n ++ suf.
Proof.
  revert h. induction n as [|c n IH]; intros h H; simpl.
  - eauto.
  - destruct h as [|d h]; [discriminate|]. simpl in H.
    apply andb_true_iff in H as [Hc Hn]. apply Ascii.eqb_eq in Hc. subst d.
    destruct (IH h Hn) as [suf ->]. eauto.
Qed.

Lemma contains_sound (n h : string) :
  contains n h = true -> exists pre suf, h = pre ++ n ++ suf.
Proof.
  induction h as [|d h IH]; intros H; simpl in H.
  - destruct n; [|discriminate]. exists "", "". reflexivity.
  - apply orb_true_iff in H as [H|H].
    + destruct (startswith_sound _ _ H) as [suf Hs]. exists "", suf. exact Hs.
    + destruct (IH H) as (pre & suf & ->). exists (String d pre), suf. reflexivity.
Qed.

(** Stripping leading whitespace in front of a non-space character leaves
    that character and what follows in place. *)
Lemma lstrip_app_nonspace (pre : string) (c : ascii) (rest : string) :
  is_space c = false ->
  exists pre', lstrip (pre ++ String c rest) = pre' ++ String c rest.
Proof.
  intros Hc. induction pre as [|d pre IH]; simpl.
  - rewrite Hc. exists "". reflexivity.
  - destruct (is_space d).
    + exact IH.
    + exists (String d pre). reflexivity.
Qed.

(** A substring whose first and last characters are not whitespace
    survives [str.strip()]. *)
Lemma contains_strip (n h : string) c0 n0 c1 n1 :
  n = String c0 n0 -> is_space c0 = false ->
  rev_str n = String c1 n1 -> is_space c1 = false ->
  contains n h = true -> contains n (strip h) = true.
Proof.
  intros Hn Hc0 Hr Hc1 H.
  destruct (contains_sound n h H) as (pre & suf & ->).
  unfold strip, rstrip.
  destruct (lstrip_app_nonspace pre c0 (n0 ++ suf) Hc0) as [pre' Hl].
  replace (pre ++ n ++ suf) with (pre ++ String c0 (n0 ++ suf)) by (rewrite Hn; reflexivity).
  rewrite Hl.
  replace (pre' ++ String c0 (n0 ++ suf)) with (pre' ++ n ++ suf) by (rewrite Hn; reflexivity).
  rewrite !rev_str_app, Hr.
  destruct (lstrip_app_nonspace (rev_str suf) c1 (n1 ++ rev_str pre') Hc1) as [suf' Hl'].
  rewrite append_assoc. simpl. rewrite Hl', rev_str_app.
  change (String c1 (n1 ++ rev_str pre')) with (String c1 n1 ++ rev_str pre').
  rewrite rev_str_app, <- Hr, !rev_str_involutive, append_assoc.
  apply contains_app.
Qed.

Lemma concat_all_app (l1 l2 : list string) :
  Ocr.concat_all (l1 ++ l2) = Ocr.concat_all l1 ++ Ocr.concat_all l2.
Proof.
  induction l1 as [|x l1 IH]; simpl; [reflexivity|].
  unfold Ocr.concat_all in *. simpl. rewrite IH, append_assoc. reflexivity.
Qed.

End StrFacts.

(** ** PDF extraction *)

Module OcrFacts.
Import Ocr StrFacts.

(** What the loop appends for page [page] numbered [k] (1-based). *)
Definition page_section (E : env) (k : nat) (page : PdfPage) (sec : string) : Prop :=
  if String.eqb (strip (page_text page)) "" then
    exists o, tesseract E (page_png page) = Ok o /\
              sec = nl ++ ocr_header k ++ nl ++ strip o ++ nl
  else sec = nl ++ text_header k ++ nl ++ page_text page ++ nl.

Lemma pdf_pages_loop_spec (E : env) (pages : list PdfPage) :
  forall n text tr out tr',
  pdf_pages_loop E n pages text tr = (Ok out, tr') ->
  exists secs, length secs = length pages /\ out = text ++ concat_all secs /\
    forall i page, nth_error pages i = Some page ->
      exists sec, nth_error secs i = Some sec /\ page_section E (n + i + 1) page sec.
Proof.
  induction pages as [|page rest IH]; intros n text tr out tr' H; simpl in H.
  - injection H as <- _. exists []. split; [reflexivity|].
    split; [symmetry; apply append_empty_r|]. intros i page Hi. destruct i; discriminate.
  - destruct (String.eqb (strip (page_text page)) "") eqn:Hb.
    + unfold bind at 1, ocr_image, bind at 1, call, ret in H.
      destruct (tesseract E (page_png page)) as [o|e] eqn:Ho; [|discriminate].
      destruct (IH _ _ _ _ _ H) as (secs & Hl & Ho' & Hs).
      exists ((nl ++ ocr_header (n + 1) ++ nl ++ strip o ++ nl) :: secs).
      split; [simpl; congruence|]. split.
      * rewrite Ho'. unfold concat_all. simpl. rewrite append_assoc. reflexivity.
      * intros [|i] p Hi; simpl in Hi.
        -- injection Hi as <-. eexists. split; [reflexivity|].
           unfold page_section. rewrite Hb. exists o. split; [exact Ho|].
           rewrite Nat.add_0_r. reflexivity.
        -- destruct (Hs i p Hi) as (sec & Hsec & Hp). exists sec. split; [exact Hsec|].
           replace (n + S i + 1) with (S n + i + 1) by lia. exact Hp.
    + destruct (IH _ _ _ _ _ H) as (secs & Hl & Ho' & Hs).
      exists ((nl ++ text_header (n + 1) ++ nl ++ page_text page ++ nl) :: secs).
      split; [simpl; congruence|]. split.
      * rewrite Ho'. unfold concat_all. simpl. rewrite append_assoc. reflexivity.
      * intros [|i] p Hi; simpl in Hi.
        -- injection Hi as <-. eexists. split; [reflexivity|].
           unfold page_section. rewrite Hb. rewrite Nat.add_0_r. reflexivity.
        -- destruct (Hs i p Hi) as (sec & Hsec & Hp). exists sec. split; [exact Hsec|].
           replace (n + S i + 1) with (S n + i + 1) by lia. exact Hp.
Qed.

Lemma contains_section (secs : list string) (i : nat) (sec pre h post : string) :
  nth_error secs i = Some sec -> sec = pre ++ h ++ post ->
  contains h (concat_all secs) = true.
Proof.
  intros Hi ->. destruct (nth_error_split secs i Hi) as (l1 & l2 & -> & _).
  rewrite concat_all_app. unfold concat_all at 2. simpl. fold (concat_all l2).
  rewrite !append_assoc, <- (append_assoc (concat_all l1) pre).
  apply contains_app.
Qed.

Lemma ocr_header_survives_strip (k : nat) (h : string) :
  contains (ocr_header k) h = true -> contains (ocr_header k) (strip h) = true.
Proof.
  apply (contains_strip _ _ "-"%char ("-- Page " ++ show_nat k ++ " (OCR) ---")
           "-"%char ("-- )RCO( " ++ rev_str (show_nat k) ++ " egaP ---")).
  - reflexivity.
  - reflexivity.
  - unfold ocr_header. rewrite !rev_str_app. reflexivity.
  - reflexivity.
Qed.

Lemma text_header_survives_strip (k : nat) (h : string) :
  contains (text_header k) h = true -> contains (text_header k) (strip h) = true.
Proof.
  apply (contains_strip _ _ "-"%char ("-- Page " ++ show_nat k ++ " ---")
           "-"%char ("-- " ++ rev_str (show_nat k) ++ " egaP ---")).
  - reflexivity.
  - reflexivity.
  - unfold text_header. rewrite !rev_str_app. reflexivity.
  - reflexivity.
Qed.

(** C7: every successful PDF extraction is the stripped concatenation, in
    page order, of one section per page: a page whose text layer is empty
    or whitespace-only gets the OCR text of its rendered image under
    "--- Page N (OCR) ---", any other page gets its own text under
    "--- Page N ---"; each such header occurs in the output. *)
Theorem extract_from_pdf_sections (E : env) (content : bytes) (tr tr' : list event)
    (out : string) :
  extract_from_pdf E content tr = (Ok out, tr') ->
  exists pages secs,
    pdf_open E content = Ok pages /\
    length secs = length pages /\
    out = strip (concat_all secs) /\
    forall i page, nth_error pages i = Some page ->
      exists sec, nth_error secs i = Some sec /\
      page_section E (S i) page sec /\
      (if String.eqb (strip (page_text page)) "" then contains (ocr_header (S i)) out = true
       else contains (text_header (S i)) out = true).
Proof.
  intros H. unfold extract_from_pdf, bind at 1, call in H.
  destruct (pdf_open E content) as [pages|e]; [|discriminate].
  unfold bind in H.
  destruct (pdf_pages_loop E 0 pages "" (tr ++ [PdfOpen content])%list) as [[text|e] tr1] eqn:Hl;
    [|discriminate].
  unfold ret in H. injection H as <- _.
  destruct (pdf_pages_loop_spec E pages 0 "" _ _ _ Hl) as (secs & Hlen & Htext & Hs).
  simpl in Htext. subst text.
  exists pages, secs. split; [reflexivity|]. split; [exact Hlen|]. split; [reflexivity|].
  intros i page Hi. destruct (Hs i page Hi) as (sec & Hsec & Hp).
  replace (0 + i + 1) with (S i) in Hp by lia.
  exists sec. split; [exact Hsec|]. split; [exact Hp|].
  unfold page_section in Hp. destruct (String.eqb _ _).
  - destruct Hp as (o & _ & ->). apply ocr_header_survives_strip.
    apply (contains_section secs i _ nl _ (nl ++ strip o ++ nl) Hsec). reflexivity.
  - subst sec. apply text_header_survives_strip.
    apply (contains_section secs i _ nl _ (nl ++ page_text page ++ nl) Hsec). reflexivity.
Qed.

Lemma extract_from_pdf_sections_witness :
  match extract_from_pdf Fixtures.pdf_env [] [] with
  | (Ok out, _) =>
      contains (text_header 1) out = true /\ contains (ocr_header 2) out = true /\
      contains (text_header 3) out = true
  | (Raise _, _) => False
  end.
Proof.
  destruct (extract_from_pdf Fixtures.pdf_env [] []) as [[out|e] tr'] eqn:H.
  - destruct (extract_from_pdf_sections _ _ _ _ _ H) as (pages & secs & Hp & _ & _ & Hs).
    simpl in Hp. injection Hp as <-.
    destruct (Hs 0 _ eq_refl) as (s1 & _ & _ & H1).
    destruct (Hs 1 _ eq_refl) as (s2 & _ & _ & H2).
    destruct (Hs 2 _ eq_refl) as (s3 & _ & _ & H3).
    vm_compute in H1, H2, H3. auto.
  - vm_compute in H. discriminate.
Defined.

Example extract_from_pdf_output :
  fst (extract_from_pdf Fixtures.pdf_env [] []) =
    Ok ("--- Page 1 ---" ++ nl ++ "Introduction" ++ nl ++ nl ++ nl
        ++ "--- Page 2 (OCR) ---" ++ nl ++ "Scanned page" ++ nl ++ nl
        ++ "--- Page 3 ---" ++ nl ++ "Annex").
Proof. vm_compute. reflexivity. Qed.

End OcrFacts.

(** ** NLP analysis *)

Module NlpFacts.
Import Nlp.

(** The inner step of [_extract_entities] on one type's list. *)
Definition append_new (l : list string) (x : string) : list string :=
  if mem x l then l else (l ++ [x])%list.

Lemma mem_app_comm (s : list string) (x y : string) :
  mem y (s ++ [x])%list = mem y (x :: s).
Proof.
  unfold mem. rewrite existsb_app. simpl. rewrite orb_false_r, orb_comm. reflexivity.
Qed.

Lemma first_seen_ext (xs s1 s2 : list string) :
  (forall y, mem y s1 = mem y s2) -> first_seen s1 xs = first_seen s2 xs.
Proof.
  revert s1 s2. induction xs as [|x xs IH]; intros s1 s2 H; simpl; [reflexivity|].
  rewrite H. destruct (mem x s2); [apply IH; exact H|].
  f_equal. apply IH. intros y. simpl. rewrite H. reflexivity.
Qed.

Lemma fold_append_new (xs acc : list string) :
  fold_left append_new xs acc = (acc ++ first_seen acc xs)%list.
Proof.
  revert acc. induction xs as [|x xs IH]; intros acc; simpl.
  - rewrite app_nil_r. reflexivity.
  - unfold append_new at 2. destruct (mem x acc) eqn:Hm.
    + apply IH.
    + rewrite IH, <- app_assoc. simpl. f_equal. f_equal.
      apply first_seen_ext. intros y. apply mem_app_comm.
Qed.

Lemma first_seen_nodup (xs seen : list string) :
  NoDup (first_seen seen xs) /\ (forall y, In y (first_seen seen xs) -> mem y seen = false).
Proof.
  revert seen. induction xs as [|x xs IH]; intros seen; simpl.
  - split; [constructor | tauto].
  - destruct (mem x seen) eqn:Hm; [apply IH|].
    destruct (IH (x :: seen)) as [Hnd Hnot]. split.
    + constructor; [|exact Hnd]. intros Hin. specialize (Hnot x Hin). simpl in Hnot.
      rewrite String.eqb_refl in Hnot. discriminate.
    + intros y [<-|Hin]; [exact Hm|]. specialize (Hnot y Hin). simpl in Hnot.
      apply orb_false_iff in Hnot. tauto.
Qed.

Lemma lookup_app {V} (d : list (string * V)) (k : string) (v : V) (L : string) :
  lookup (d ++ [(k, v)])%list L =
  match lookup d L with Some w => Some w | None => if String.eqb k L then Some v else None end.
Proof.
  unfold lookup. induction d as [|[k0 v0] d IH]; simpl.
  - destruct (String.eqb k L); reflexivity.
  - destruct (String.eqb k0 L); [reflexivity | exact IH].
Qed.

Lemma lookup_none_has_key {V} (d : list (string * V)) (k : string) :
  has_key d k = false -> lookup d k = None.
Proof.
  unfold lookup, has_key. induction d as [|[k0 v0] d IH]; simpl; [reflexivity|].
  intros H. apply orb_false_iff in H as [H1 H2]. rewrite H1. exact (IH H2).
Qed.

Lemma has_key_lookup {V} (d : list (string * V)) (k : string) :
  has_key d k = true -> exists v, lookup d k = Some v.
Proof.
  unfold lookup, has_key. induction d as [|[k0 v0] d IH]; simpl; [discriminate|].
  intros H. destruct (String.eqb k0 k); simpl in *; [eexists; reflexivity | exact (IH H)].
Qed.

Lemma lookup_set {V} (d : list (string * V)) (k : string) (v : V) (L : string) :
  lookup (set d k v) L =
  if String.eqb k L then (if has_key d k then Some v else None) else lookup d L.
Proof.
  unfold lookup, set, has_key. induction d as [|[k0 v0] d IH]; simpl.
  - destruct (String.eqb k L); reflexivity.
  - destruct (String.eqb_spec k0 k) as [->|Hne]; simpl.
    + destruct (String.eqb k L) eqn:E; simpl; [reflexivity|]. exact IH.
    + destruct (String.eqb_spec k0 L) as [->|HneL].
      * destruct (String.eqb_spec k L) as [->|]; [congruence|]. reflexivity.
      * exact IH.
Qed.

Lemma set_keys {V} (d : list (string * V)) (k : string) (v : V) :
  map fst (set d k v) = map fst d.
Proof.
  unfold set. rewrite map_map. apply map_ext. intros [k0 v0]. simpl.
  destruct (String.eqb_spec k0 k); simpl; congruence.
Qed.

Lemma has_key_in {V} (d : list (string * V)) (k : string) :
  has_key d k = false -> ~ In k (map fst d).
Proof.
  unfold has_key. intros H Hin. apply in_map_iff in Hin as ([k0 v0] & <- & Hin).
  assert (Hx : existsb (fun kv => String.eqb (fst kv) k0) d = true)
    by (apply existsb_exists; exists (k0, v0); simpl; split; [exact Hin | apply String.eqb_refl]).
  simpl in H. congruence.
Qed.

Lemma lookup_in_nodup {V} (d : list (string * V)) (k : string) (v : V) :
  NoDup (map fst d) -> In (k, v) d -> lookup d k = Some v.
Proof.
  unfold lookup. induction d as [|[k0 v0] d IH]; simpl; [tauto|].
  intros Hnd [Heq|Hin]; inversion Hnd as [|x y Hnot Hnd']; subst.
  - injection Heq as -> ->. rewrite String.eqb_refl. reflexivity.
  - destruct (String.eqb_spec k0 k) as [->|]; [|exact (IH Hnd' Hin)].
    exfalso. apply Hnot. apply (in_map fst) in Hin. exact Hin.
Qed.

(** The invariant of the loop of [_extract_entities] after the spans [P]:
    types are unique keys, and the list of a type is what [append_new]
    builds from that type's surface strings. *)
Definition ent_inv (d : list (string * list string)) (P : list (string * string)) : Prop :=
  NoDup (map fst d) /\
  forall L, lookup d L =
    if existsb (fun e => String.eqb (fst e) L) P
    then Some (fold_left append_new (texts_of L P) []) else None.

Lemma texts_of_absent (L : string) (P : list (string * string)) :
  existsb (fun e => String.eqb (fst e) L) P = false -> texts_of L P = [].
Proof.
  unfold texts_of. induction P as [|e P IH]; simpl; [reflexivity|].
  intros H. apply orb_false_iff in H as [H1 H2]. rewrite H1. exact (IH H2).
Qed.

Lemma texts_of_snoc (L lab t0 : string) (P : list (string * string)) :
  texts_of L (P ++ [(lab, t0)]) =
  (texts_of L P ++ (if String.eqb lab L then [strip t0] else []))%list.
Proof.
  unfold texts_of. rewrite filter_app, map_app. simpl.
  destruct (String.eqb lab L); reflexivity.
Qed.

Lemma add_entity_inv (d : list (string * list string)) (P : list (string * string))
    (lab t0 : string) :
  ent_inv d P -> ent_inv (add_entity d (lab, t0)) (P ++ [(lab, t0)]).
Proof.
  intros [Hnd Hl]. unfold add_entity. cbn [fst snd].
  set (cur0 := fold_left append_new (texts_of lab P) []).
  set (d1 := if has_key d lab then d else (d ++ [(lab, [])])%list).
  assert (Hd1 : NoDup (map fst d1) /\ has_key d1 lab = true /\
                forall L, lookup d1 L = if String.eqb lab L then Some cur0 else lookup d L).
  { unfold d1. destruct (has_key d lab) eqn:Hk.
    - split; [exact Hnd|]. split; [exact Hk|]. intros L.
      destruct (String.eqb_spec lab L) as [<-|]; [|reflexivity].
      destruct (has_key_lookup d lab Hk) as [v Hv]. rewrite Hv. rewrite Hl in Hv.
      unfold cur0. destruct (existsb _ P); congruence.
    - split; [|split].
      + rewrite map_app. apply NoDup_app; [exact Hnd | repeat constructor; simpl; tauto|].
        intros a Ha [<-|[]]. exact (has_key_in d lab Hk Ha).
      + unfold has_key. rewrite existsb_app. simpl. rewrite String.eqb_refl, orb_true_r.
        reflexivity.
      + intros L. rewrite lookup_app. destruct (String.eqb_spec lab L) as [<-|].
        * rewrite (lookup_none_has_key d lab Hk). f_equal.
          pose proof (Hl lab) as Hlab. rewrite (lookup_none_has_key d lab Hk) in Hlab.
          unfold cur0. destruct (existsb _ P) eqn:He; [discriminate|].
          rewrite (texts_of_absent lab P He). reflexivity.
        * destruct (lookup d L); reflexivity. }
  destruct Hd1 as (Hnd1 & Hk1 & Hl1).
  fold d1.
  assert (Hcur : match lookup d1 lab with Some l => l | None => [] end = cur0)
    by (rewrite Hl1, String.eqb_refl; reflexivity).
  rewrite Hcur.
  assert (Hd2 : NoDup (map fst (if mem (strip t0) cur0 then d1
                                else set d1 lab (cur0 ++ [strip t0])%list)) /\
                forall L, lookup (if mem (strip t0) cur0 then d1
                                  else set d1 lab (cur0 ++ [strip t0])%list) L =
                          if String.eqb lab L then Some (append_new cur0 (strip t0))
                          else lookup d L).
  { unfold append_new. destruct (mem (strip t0) cur0).
    - split; [exact Hnd1|]. exact Hl1.
    - split; [rewrite set_keys; exact Hnd1|]. intros L. rewrite lookup_set, Hk1, Hl1.
      destruct (String.eqb lab L); reflexivity. }
  destruct Hd2 as [Hnd2 Hl2]. split; [exact Hnd2|].
  intros L. rewrite Hl2, existsb_app, texts_of_snoc. simpl.
  destruct (String.eqb_spec lab L) as [<-|].
  - rewrite orb_true_r, fold_left_app. reflexivity.
  - rewrite orb_false_r, app_nil_r. apply Hl.
Qed.

Lemma extract_entities_inv (ents : list (string * string)) :
  ent_inv (fold_left add_entity ents []) ents.
Proof.
  assert (Hgen : forall rest d P, ent_inv d P ->
            ent_inv (fold_left add_entity rest d) (P ++ rest)%list).
  { induction rest as [|[lab t0] rest IH]; intros d P H; simpl.
    - rewrite app_nil_r. exact H.
    - replace (P ++ (lab, t0) :: rest)%list with ((P ++ [(lab, t0)]) ++ rest)%list
        by (rewrite <- app_assoc; reflexivity).
      apply IH. apply add_entity_inv. exact H. }
  apply (Hgen ents [] []). split; [constructor | reflexivity].
Qed.

(** C9: every analysis has at most 10 keywords; its entity types are
    distinct, and the list of each type has no duplicate and is the
    first-seen deduplication of the surface strings of that type's spans,
    in the order spaCy reports them. *)
Theorem analyze_text_keywords_entities (E : env) (text : string) (tr tr' : list event)
    (a : NLPAnalysis) :
  analyze_text E text tr = (Ok a, tr') ->
  length (keywords a) <= 10 /\
  exists doc,
    spacy E (detect_language text) (take max_text_length text) = Ok doc /\
    NoDup (map fst (entities a)) /\
    forall label l, In (label, l) (entities a) ->
      NoDup l /\ l = first_seen [] (texts_of label (doc_ents doc)).
Proof.
  intros H. unfold analyze_text, bind, call, ret in H. cbv zeta in H.
  destruct (spacy E (detect_language text) (take max_text_length text)) as [doc|e] eqn:Hs;
    [|discriminate].
  apply pair_equal_spec in H as [H _]. injection H as <-. cbn [keywords entities]. split.
  - unfold extract_keywords, most_common. rewrite length_map. apply firstn_le_length.
  - exists doc. split; [reflexivity|].
    destruct (extract_entities_inv (doc_ents doc)) as [Hnd Hl].
    split; [exact Hnd|]. intros label l Hin.
    pose proof (lookup_in_nodup _ _ _ Hnd Hin) as Hlk. unfold extract_entities in Hlk.
    rewrite Hl in Hlk. destruct (existsb _ _); [|discriminate]. injection Hlk as <-.
    rewrite fold_append_new. simpl. split; [apply first_seen_nodup | reflexivity].
Qed.

Lemma analyze_text_keywords_entities_witness :
  match fst (analyze_text Fixtures.nlp_env "Acme hired Ann" []) with
  | Ok a => length (keywords a) <= 10 /\
            keywords a = ["kilo"; "alpha"; "bravo"; "charlie"; "delta"; "echo";
                          "foxtrot"; "golf"; "hotel"; "india"] /\
            entities a = [("ORG", ["Acme"; "Beta"]); ("PERSON", ["Ann"])]
  | Raise _ => False
  end.
Proof.
  destruct (analyze_text Fixtures.nlp_env "Acme hired Ann" []) as [[a|e] tr'] eqn:H.
  - destruct (analyze_text_keywords_entities _ _ _ _ _ H) as [Hk _].
    apply (f_equal fst) in H. lazy in H. injection H as <-.
    split; [exact Hk|]. split; reflexivity.
  - apply (f_equal fst) in H. lazy in H. discriminate.
Defined.

End NlpFacts.

(* ------------------------------------------------------------------ *)
(** ** The order of the external calls of [process_document] *)

Module PipelineFacts.
Import Pipeline.

Lemma bind_Ok {A B} (m : M A) (f : A -> M B) tr b tr' :
  bind m f tr = (Ok b, tr') ->
  exists a tr1, m tr = (Ok a, tr1) /\ f a tr1 = (Ok b, tr').
Proof.
  unfold bind. destruct (m tr) as [[a|e] tr1]; intro H; [eauto | discriminate].
Qed.

(** The handler of [process_document] always raises. *)
Lemma process_document_handler_raises (E : env) url e tr :
  fst ((try_except (call (HttpPut url (UpdateError (str_exn e)))
                         (api_put E url (UpdateError (str_exn e))))
                   (fun _ => ret tt) ;;;
        raise (A := ProcessDocumentResponse)
          (HTTPException 500 ("Document processing failed: " ++ str_exn e))) tr)
  = Raise (HTTPException 500 ("Document processing failed: " ++ str_exn e)).
Proof.
  unfold bind, try_except, call, ret, raise.
  destruct (api_put E url (UpdateError (str_exn e))); reflexivity.
Qed.

(** A successful run ends with the [PUT] of the processed result followed
    by the creation of the vector-store object. *)
Lemma process_document_ok_tail (E : env) classifier document_id tr r tr' :
  process_document E classifier document_id tr = (Ok r, tr') ->
  exists pre processed_at obj,
    tr' = (pre ++ [HttpPut (document_url E document_id)
                     (UpdateProcessed (resp_extracted_text r) (resp_summary r)
                        (resp_entities r)
                        (Classification.category (resp_classification r))
                        (Classification.confidence (resp_classification r))
                        processed_at);
                   VectorCreate obj])%list /\
    idx_document_id obj = document_id /\
    idx_content obj = resp_extracted_text r /\
    idx_summary obj = resp_summary r /\
    idx_category obj = Classification.category (resp_classification r).
Proof.
  unfold process_document, try_except at 1.
  match goal with
  | |- (match ?m with _ => _ end = _) -> _ => destruct m as [[r0|e] t0] eqn:Hb
  end; intro H.
  2:{ exfalso. apply (f_equal fst) in H.
      rewrite process_document_handler_raises in H. discriminate. }
  injection H as <- <-.
  apply bind_Ok in Hb as ([st document] & t1 & _ & Hb).
  apply bind_Ok in Hb as (u1 & t2 & _ & Hb).
  apply bind_Ok in Hb as ([fst_ content] & t3 & _ & Hb).
  apply bind_Ok in Hb as (u2 & t4 & _ & Hb).
  apply bind_Ok in Hb as (text & t5 & _ & Hb).
  apply bind_Ok in Hb as (nlp & t6 & _ & Hb).
  apply bind_Ok in Hb as (summary & t7 & _ & Hb).
  apply bind_Ok in Hb as (u3 & t8 & Hput & Hb).
  apply bind_Ok in Hb as (u4 & t9 & Hidx & Hb).
  unfold call in Hput, Hidx. unfold ret in Hb.
  injection Hput as _ <-. injection Hidx as _ <-. injection Hb as <- <-.
  cbn [resp_extracted_text resp_summary resp_entities resp_classification].
  eexists t7, _, _. split; [rewrite <- app_assoc; reflexivity|].
  repeat split.
Qed.

(** The processing run used below succeeds. *)
Lemma process_document_ok_env_succeeds :
  match fst (process_document Fixtures.ok_env
               (Some Classification.create_rule_based_classifier) 7 []) with
  | Ok _ => True
  | Raise _ => False
  end.
Proof. lazy. exact I. Qed.

(** C2 (counterexample): in a successful run of [process_document] the
    result is persisted to the document store ([PUT] with status
    "processed") BEFORE the object is written to the vector store, and the
    vector-store write is the last external call. *)
Lemma process_document_persists_before_indexing :
  exists r tr' pre u obj,
    process_document Fixtures.ok_env
      (Some Classification.create_rule_based_classifier) 7 [] = (Ok r, tr') /\
    tr' = (pre ++ [HttpPut "http://localhost:8000/documents/7" u;
                   VectorCreate obj])%list /\
    update_status u = "processed".
Proof.
  pose proof process_document_ok_env_succeeds as Hs.
  destruct (process_document Fixtures.ok_env
              (Some Classification.create_rule_based_classifier) 7 [])
    as [[r|e] tr'] eqn:H; [|contradiction].
  destruct (process_document_ok_tail _ _ _ _ _ _ H) as (pre & pat & obj & Htr & _).
  exists r, tr', pre. eexists. exists obj. split; [reflexivity|]. split; [exact Htr | reflexivity].
Qed.

(** C2 (amended): in every successful run of [process_document], the last
    two external calls are, in this order, the [PUT] to
    [/documents/{document_id}] of the result with status "processed"
    (extracted text, summary, entities, classification), and the creation
    of the [IndexedDocument] with the same document id, text, summary and
    category in the vector store. *)
Theorem process_document_update_then_index (E : env) classifier document_id tr r tr' :
  process_document E classifier document_id tr = (Ok r, tr') ->
  exists pre u obj,
    tr' = (pre ++ [HttpPut (document_url E document_id) u; VectorCreate obj])%list /\
    update_status u = "processed" /\
    (exists processed_at,
       u = UpdateProcessed (resp_extracted_text r) (resp_summary r) (resp_entities r)
             (Classification.category (resp_classification r))
             (Classification.confidence (resp_classification r)) processed_at) /\
    idx_document_id obj = document_id /\
    idx_content obj = resp_extracted_text r /\
    idx_summary obj = resp_summary r /\
    idx_category obj = Classification.category (resp_classification r).
Proof.
  intro H.
  destruct (process_document_ok_tail _ _ _ _ _ _ H)
    as (pre & pat & obj & Htr & Hid & Hc & Hsum & Hcat).
  exists pre. eexists. exists obj. split; [exact Htr|]. split; [reflexivity|].
  split; [eexists; reflexivity|]. auto.
Qed.

Lemma process_document_update_then_index_witness :
  exists r tr',
    process_document Fixtures.ok_env
      (Some Classification.create_rule_based_classifier) 7 [] = (Ok r, tr') /\
    exists pre u obj,
      tr' = (pre ++ [HttpPut "http://localhost:8000/documents/7" u;
                     VectorCreate obj])%list /\
      update_status u = "processed" /\ idx_document_id obj = 7%Z.
Proof.
  pose proof process_document_ok_env_succeeds as Hs.
  destruct (process_document Fixtures.ok_env
              (Some Classification.create_rule_based_classifier) 7 [])
    as [[r|e] tr'] eqn:H; [|contradiction].
  exists r, tr'. split; [reflexivity|].
  destruct (process_document_update_then_index _ _ _ _ _ _ H)
    as (pre & u & obj & Htr & Hst & _ & Hid & _).
  exists pre, u, obj. split; [exact Htr|]. split; [exact Hst | exact Hid].
Defined.

End PipelineFacts.

(* ------------------------------------------------------------------ *)
(** ** More properties of the classification service *)

Module ClassificationMore.
Import Classification ClassificationFacts.

Lemma fold_argmax_in (rest : list (string * nat)) (best : string * nat) :
  In (fold_left (fun best kv => if Nat.ltb (snd best) (snd kv) then kv else best) rest best)
     (best :: rest).
Proof.
  revert best. induction rest as [|x rest IH]; intros best; simpl; [now left|].
  destruct (Nat.ltb (snd best) (snd x)).
  - right. apply IH.
  - destruct (IH best) as [H|H]; [now left | right; right; exact H].
Qed.

Lemma argmax_first_in (l : list (string * nat)) (k : string) :
  argmax_first l = Ok k -> In k (map fst l).
Proof.
  destruct l as [|[k0 v0] rest]; [discriminate|]. unfold argmax_first.
  intros H. injection H as <-. exact (in_map fst _ _ (fold_argmax_in rest (k0, v0))).
Qed.

(** The category chosen by [_rule_based_classify] is "other" or a key of
    the classifier dict. *)
Lemma rule_based_classify_category (c : list (string * list string)) (t cat : string) (q : Q) :
  rule_based_classify c t = Ok (cat, q) -> cat = "other" \/ In cat (map fst c).
Proof.
  unfold rule_based_classify. cbv zeta.
  destruct (max_value _) as [m|e]; cbn [Classification.bind]; [|discriminate].
  destruct (Nat.eqb m 0); [intros H; injection H as <- _; now left|].
  destruct (argmax_first _) as [bc|e] eqn:Ha; cbn [Classification.bind]; [|discriminate].
  repeat match goal with
         | |- context [Classification.bind ?m _] =>
             destruct m; cbn [Classification.bind]; [|discriminate]
         end.
  intros H. injection H as <- _. right.
  apply argmax_first_in in Ha. rewrite map_map in Ha. exact Ha.
Qed.

Lemma lower_char_idem (c : ascii) : lower_char (lower_char c) = lower_char c.
Proof. destruct c as [[] [] [] [] [] [] [] []]; reflexivity. Qed.

Lemma lower_app (a b : string) : lower (a ++ b) = lower a ++ lower b.
Proof. induction a as [|c a IH]; simpl; [reflexivity | now rewrite IH]. Qed.

Lemma lower_idem (s : string) : lower (lower s) = lower s.
Proof. induction s as [|c s IH]; simpl; [reflexivity | now rewrite lower_char_idem, IH]. Qed.

Lemma forallb_false_exists {A} (f : A -> bool) (l : list A) :
  forallb f l = false -> exists x, In x l /\ f x = false.
Proof.
  induction l as [|x l IH]; simpl; [discriminate|]. intros H.
  destruct (f x) eqn:Hx; simpl in H.
  - destruct (IH H) as (y & Hy & Hf). eauto.
  - eauto.
Qed.

Lemma no_category_hit_false (t : string) :
  no_category_hit t = false ->
  exists cat kws k, In (cat, kws) create_rule_based_classifier /\ In k kws /\ contains k t = true.
Proof.
  unfold no_category_hit. intros H.
  destruct (forallb_false_exists _ _ H) as ([cat kws] & Hin & Hf).
  destruct (forallb_false_exists _ _ Hf) as (k & Hk & Hc). simpl in Hc.
  apply negb_false_iff in Hc. exists cat, kws, k. auto.
Qed.

Lemma classifier_kws_length (cat : string) (kws : list string) :
  In (cat, kws) create_rule_based_classifier -> 1 <= length kws <= 7.
Proof.
  intros H. simpl in H.
  repeat (destruct H as [H|H]; [injection H as <- <-; simpl; lia|]). contradiction.
Qed.

(** X1: whatever the text and title, the category of the initialized
    service is one of the eleven names of [self.categories]. *)
Theorem classify_category_in_categories (text title : string) :
  In (category (classify text title)) categories.
Proof.
  unfold classify, classify_document.
  destruct (rule_based_classify _ _) as [[cat q]|e] eqn:H; cbn [category].
  - apply rule_based_classify_category in H as [->|Hin].
    + simpl. tauto.
    + simpl in Hin. simpl. tauto.
  - simpl. tauto.
Qed.

(** X2: classification ignores letter case: lower-casing the text and the
    title beforehand changes nothing, whatever the classifier state. *)
Theorem classify_document_case_insensitive
    (classifier : option (list (string * list string))) (text title : string) :
  classify_document classifier (lower text) (lower title) =
  classify_document classifier text title.
Proof.
  unfold classify_document.
  replace (lower (lower title ++ " " ++ lower text)) with (lower (title ++ " " ++ text));
    [reflexivity|].
  rewrite !lower_app, !lower_idem. reflexivity.
Qed.

(** X3: when the initialized service picks a real category (not
    "other"), the confidence is exactly the share of that category's
    keywords found in the lower-cased title and text: the cap at 1 and the
    floor 0.1 never change it, and it is at least 1/7. *)
Theorem classify_matched_confidence (text title : string) :
  category (classify text title) <> "other" ->
  exists kws,
    In (category (classify text title), kws) create_rule_based_classifier /\
    1 <= score (lower (title ++ " " ++ text)) kws /\
    confidence (classify text title) =
      (inject_Z (Z.of_nat (score (lower (title ++ " " ++ text)) kws))
       / inject_Z (Z.of_nat (length kws)))%Q /\
    (1 # 7 <= confidence (classify text title))%Q.
Proof.
  unfold classify, classify_document. set (t := lower (title ++ " " ++ text)).
  destruct (no_category_hit t) eqn:Hn.
  - rewrite (rule_based_classify_no_hit create_rule_based_classifier t)
      by (discriminate || exact (no_category_hit_sound t Hn)).
    cbn [category]. congruence.
  - destruct (rule_based_classify_hit create_rule_based_classifier t classifier_keys_nodup
                (no_category_hit_false t Hn)) as (i & cat & kws & Hci & Hmax & Hres).
    rewrite Hres. cbn [category confidence]. intros _. exists kws.
    destruct (no_category_hit_false t Hn) as (hc & hk & k & Hin & Hk & Hc).
    apply In_nth_error in Hin as [j Hj].
    pose proof (proj1 (Hmax j hc hk Hj)) as Hle.
    pose proof (score_pos t k hk Hk Hc) as Hpos.
    pose proof (nth_error_In _ _ Hci) as Hcin.
    pose proof (classifier_kws_length _ _ Hcin) as Hlen.
    pose proof (score_le_length t kws) as Hsl.
    set (s := score t kws) in *. set (n := length kws) in *. clearbody s n.
    assert (Hq1 : (inject_Z (Z.of_nat s) / inject_Z (Z.of_nat n) <= 1)%Q).
    { apply Qle_shift_div_r.
      - change 0%Q with (inject_Z 0). rewrite <- Zlt_Qlt. lia.
      - rewrite Qmult_1_l. rewrite <- Zle_Qle. lia. }
    assert (Hq2 : (1 # 7 <= inject_Z (Z.of_nat s) / inject_Z (Z.of_nat n))%Q).
    { apply Qle_shift_div_l.
      - change 0%Q with (inject_Z 0). rewrite <- Zlt_Qlt. lia.
      - unfold Qle, Qmult, inject_Z. cbn [Qnum Qden]. lia. }
    assert (Hmin : py_min (inject_Z (Z.of_nat s) / inject_Z (Z.of_nat n)) 1 =
                   (inject_Z (Z.of_nat s) / inject_Z (Z.of_nat n))%Q)
      by (unfold py_min; rewrite (proj2 (Qle_bool_iff _ _) Hq1); reflexivity).
    rewrite Hmin.
    assert (Hmx : py_max (inject_Z (Z.of_nat s) / inject_Z (Z.of_nat n)) (1 # 10) =
                  (inject_Z (Z.of_nat s) / inject_Z (Z.of_nat n))%Q).
    { unfold py_max. rewrite (proj2 (Qle_bool_iff _ _)); [reflexivity|].
      apply Qle_trans with (1 # 7)%Q; [unfold Qle; simpl; lia | exact Hq2]. }
    rewrite Hmx. split; [exact Hcin|]. split; [lia|]. split; [reflexivity | exact Hq2].
Qed.

Lemma classify_matched_confidence_witness :
  category (classify "Payment due for the attached invoice" "Invoice 42") <> "other" /\
  exists kws,
    In (category (classify "Payment due for the attached invoice" "Invoice 42"), kws)
       create_rule_based_classifier /\
    (1 # 7 <= confidence (classify "Payment due for the attached invoice" "Invoice 42"))%Q.
Proof.
  assert (H : category (classify "Payment due for the attached invoice" "Invoice 42")
              <> "other") by (vm_compute; discriminate).
  split; [exact H|].
  destruct (classify_matched_confidence _ _ H) as (kws & Hin & _ & _ & Hq).
  exists kws. split; [exact Hin | exact Hq].
Defined.

(** X4: the tag list has at most five entries, no duplicates, and only
    names of the tag table. *)
Theorem extract_tags_shape (text : string) :
  length (extract_tags text) <= 5 /\ NoDup (extract_tags text) /\
  incl (extract_tags text) (map fst tag_keywords).
Proof.
  unfold extract_tags, tag_keywords. cbn [filter snd].
  repeat match goal with |- context [if ?b then _ else _] => destruct b end;
    cbn [map fst firstn length];
    (split; [lia|]); (split; [repeat constructor; simpl; intuition discriminate|]);
    intros x Hx; simpl in *; tauto.
Qed.

(** X5: a text that hits all six tag groups gets the first five tags in
    table order; "pending" is never reported for it. *)
Theorem extract_tags_all_groups (text : string) :
  (forall tag kws, In (tag, kws) tag_keywords -> exists k, In k kws /\ contains k text = true) ->
  extract_tags text = ["urgent"; "confidential"; "draft"; "final"; "expired"].
Proof.
  intros H.
  assert (Hx : forall tag kws, In (tag, kws) tag_keywords ->
                 existsb (fun k => contains k text) kws = true).
  { intros tag kws Hin. apply existsb_exists. destruct (H _ _ Hin) as (k & ? & ?). eauto. }
  unfold extract_tags. cbn [tag_keywords filter snd].
  rewrite (Hx "urgent" _ (or_introl eq_refl)),
          (Hx "confidential" _ (or_intror (or_introl eq_refl))),
          (Hx "draft" _ (or_intror (or_intror (or_introl eq_refl)))),
          (Hx "final" _ (or_intror (or_intror (or_intror (or_introl eq_refl))))),
          (Hx "expired" _ (or_intror (or_intror (or_intror (or_intror (or_introl eq_refl)))))),
          (Hx "pending" _ (or_intror (or_intror (or_intror (or_intror (or_intror (or_introl eq_refl))))))).
  reflexivity.
Qed.

Lemma extract_tags_all_groups_witness :
  extract_tags "urgent confidential draft final expired pending" =
  ["urgent"; "confidential"; "draft"; "final"; "expired"].
Proof.
  apply extract_tags_all_groups. intros tag kws Hin. simpl in Hin.
  repeat (destruct Hin as [Hin|Hin]; [injection Hin as <- <-; eexists; split;
                                      [now left | vm_compute; reflexivity]|]).
  contradiction.
Defined.

End ClassificationMore.

(* ------------------------------------------------------------------ *)
(** ** More properties of the NLP service *)

Module NlpMore.
Import Nlp NlpFacts.

Definition count (xs : list string) (x : string) : nat := count_occ string_dec xs x.

Lemma lookup_none_mem {V} (d : list (string * V)) (k : string) :
  lookup d k = None <-> mem k (map fst d) = false.
Proof.
  unfold lookup, mem. induction d as [|[k0 v0] d IH]; simpl; [tauto|].
  rewrite String.eqb_sym. destruct (String.eqb k k0); simpl; [split; discriminate | exact IH].
Qed.

Lemma has_key_mem {V} (d : list (string * V)) (k : string) :
  has_key d k = mem k (map fst d).
Proof.
  unfold has_key, mem. induction d as [|[k0 v0] d IH]; simpl; [reflexivity|].
  rewrite String.eqb_sym, IH. reflexivity.
Qed.

(** [Counter]: the keys are the distinct items in first-seen order. *)
Lemma counter_add_keys (c : list (string * nat)) (x : string) :
  map fst (counter_add c x) = append_new (map fst c) x.
Proof.
  unfold counter_add, append_new. destruct (lookup c x) as [n|] eqn:Hl.
  - rewrite set_keys. destruct (mem x (map fst c)) eqn:Hm; [reflexivity|].
    apply lookup_none_mem in Hm. congruence.
  - apply lookup_none_mem in Hl. rewrite Hl, map_app. reflexivity.
Qed.

Lemma counter_keys (xs : list string) : map fst (counter xs) = first_seen [] xs.
Proof.
  unfold counter.
  assert (H : forall c, map fst (fold_left counter_add xs c) = fold_left append_new xs (map fst c)).
  { induction xs as [|x xs IH]; intros c; simpl; [reflexivity|].
    rewrite IH, counter_add_keys. reflexivity. }
  rewrite H. simpl. rewrite fold_append_new. reflexivity.
Qed.

Lemma counter_add_lookup (c : list (string * nat)) (x k : string) :
  lookup (counter_add c x) k =
  if String.eqb x k then Some (match lookup c k with Some n => S n | None => 1 end)
  else lookup c k.
Proof.
  unfold counter_add. destruct (lookup c x) as [n|] eqn:Hl.
  - rewrite lookup_set. destruct (String.eqb_spec x k) as [<-|]; [|reflexivity].
    rewrite Hl. destruct (has_key c x) eqn:Hk; [reflexivity|].
    rewrite (lookup_none_has_key c x Hk) in Hl. discriminate.
  - rewrite lookup_app. destruct (String.eqb_spec x k) as [<-|].
    + rewrite Hl. reflexivity.
    + destruct (lookup c k); reflexivity.
Qed.

(** [Counter]: the count of an item is its number of occurrences. *)
Lemma counter_lookup (xs : list string) (k : string) :
  lookup (counter xs) k = if Nat.eqb (count xs k) 0 then None else Some (count xs k).
Proof.
  unfold counter, count.
  assert (H : forall c, lookup (fold_left counter_add xs c) k =
    match lookup c k with
    | Some n => Some (n + count_occ string_dec xs k)
    | None => if Nat.eqb (count_occ string_dec xs k) 0 then None
              else Some (count_occ string_dec xs k)
    end).
  { induction xs as [|x xs IH]; intros c; simpl.
    - destruct (lookup c k); [rewrite Nat.add_0_r|]; reflexivity.
    - rewrite IH, counter_add_lookup.
      destruct (string_dec x k) as [<-|Hne].
      + rewrite String.eqb_refl. destruct (lookup c x); simpl; f_equal; lia.
      + apply String.eqb_neq in Hne. rewrite Hne. reflexivity. }
  rewrite H. reflexivity.
Qed.

Lemma first_seen_in (xs seen : list string) (y : string) :
  In y (first_seen seen xs) -> In y xs.
Proof.
  revert seen. induction xs as [|x xs IH]; intros seen; simpl; [tauto|].
  destruct (mem x seen); [intros H; right; exact (IH _ H)|].
  intros [<-|H]; [now left | right; exact (IH _ H)].
Qed.

(** Stable descending insertion sort. *)
Definition count_ge (a b : string * nat) : Prop := snd b <= snd a.

Lemma insert_desc_perm (x : string * nat) (l : list (string * nat)) :
  Permutation (insert_desc x l) (x :: l).
Proof.
  induction l as [|y l IH]; simpl; [reflexivity|].
  destruct (Nat.leb (snd x) (snd y)); [|reflexivity].
  rewrite IH. apply perm_swap.
Qed.

Lemma sort_desc_perm (l : list (string * nat)) : Permutation (sort_desc l) l.
Proof.
  unfold sort_desc.
  assert (H : forall acc, Permutation (fold_left (fun acc x => insert_desc x acc) l acc)
                                      (l ++ acc)%list).
  { induction l as [|x l IH]; intros acc; simpl; [reflexivity|].
    rewrite IH, insert_desc_perm. apply Permutation_sym, Permutation_middle. }
  rewrite H, app_nil_r. reflexivity.
Qed.

Lemma insert_desc_sorted (x : string * nat) (l : list (string * nat)) :
  Sorted count_ge l -> Sorted count_ge (insert_desc x l).
Proof.
  induction l as [|y l IH]; simpl; intros H; [repeat constructor|].
  destruct (Nat.leb (snd x) (snd y)) eqn:E.
  - apply Sorted_inv in H as [Hs Hhd]. constructor; [exact (IH Hs)|].
    destruct l as [|z l']; simpl.
    + constructor. unfold count_ge. apply Nat.leb_le. exact E.
    + destruct (Nat.leb (snd x) (snd z)); constructor.
      * apply HdRel_inv in Hhd. exact Hhd.
      * unfold count_ge. apply Nat.leb_le. exact E.
  - constructor; [exact H|]. constructor. unfold count_ge.
    apply Nat.leb_gt in E. lia.
Qed.

Lemma sort_desc_sorted (l : list (string * nat)) : StronglySorted count_ge (sort_desc l).
Proof.
  apply Sorted_StronglySorted; [intros x y z H1 H2; unfold count_ge in *; lia|].
  unfold sort_desc.
  assert (H : forall acc, Sorted count_ge acc ->
                Sorted count_ge (fold_left (fun acc x => insert_desc x acc) l acc)).
  { induction l as [|x l IH]; intros acc Hacc; simpl; [exact Hacc|].
    apply IH. apply insert_desc_sorted. exact Hacc. }
  apply H. constructor.
Qed.

Lemma strongly_sorted_nth {A} (R : A -> A -> Prop) (l : list A) (i j : nat) (a b : A) :
  StronglySorted R l -> i < j -> nth_error l i = Some a -> nth_error l j = Some b -> R a b.
Proof.
  revert i j. induction l as [|x l IH]; intros i j Hs Hij Hi Hj.
  - destruct i; discriminate.
  - apply StronglySorted_inv in Hs as [Hs Hall]. destruct i as [|i], j as [|j]; try lia.
    + simpl in Hi, Hj. injection Hi as <-. rewrite Forall_forall in Hall.
      apply Hall. exact (nth_error_In _ _ Hj).
    + simpl in Hi, Hj. apply (IH i j Hs); [lia | exact Hi | exact Hj].
Qed.

Lemma in_firstn_l {A} (n : nat) (l : list A) (x : A) : In x (firstn n l) -> In x l.
Proof.
  intros H. rewrite <- (firstn_skipn n l). apply in_or_app. now left.
Qed.

Lemma mem_in (x : string) (l : list string) : mem x l = true -> In x l.
Proof.
  unfold mem. intros H. apply existsb_exists in H as (y & Hy & He).
  apply String.eqb_eq in He. subst. exact Hy.
Qed.

Lemma extract_keywords_eq (doc : NlpDoc) (limit : nat) :
  extract_keywords doc limit = map fst (most_common (counter (keyword_tokens doc)) limit).
Proof. reflexivity. Qed.

Lemma counter_entry (xs : list string) (p : string * nat) :
  In p (counter xs) -> snd p = count xs (fst p) /\ In (fst p) xs.
Proof.
  intros Hin.
  assert (Hnd : NoDup (map fst (counter xs)))
    by (rewrite counter_keys; apply first_seen_nodup).
  destruct p as [k n].
  pose proof (lookup_in_nodup _ _ _ Hnd Hin) as Hl. rewrite counter_lookup in Hl.
  destruct (Nat.eqb (count xs k) 0); [discriminate|]. injection Hl as <-.
  split; [reflexivity|]. apply (in_map fst) in Hin. rewrite counter_keys in Hin.
  exact (first_seen_in _ _ _ Hin).
Qed.

(** X6: the keywords are distinct, at most [limit] of them, and each is
    the lower-cased lemma of a noun, proper noun or adjective token that is
    neither a stop word nor punctuation and whose text is longer than two
    characters. *)
Theorem extract_keywords_members (doc : NlpDoc) (limit : nat) :
  NoDup (extract_keywords doc limit) /\
  length (extract_keywords doc limit) <= limit /\
  forall k, In k (extract_keywords doc limit) ->
    exists t, In t (doc_tokens doc) /\ k = lower (tok_lemma t) /\
              In (tok_pos t) keyword_pos /\ tok_is_stop t = false /\
              tok_is_punct t = false /\ 2 < String.length (tok_text t).
Proof.
  rewrite extract_keywords_eq. unfold most_common.
  set (C := counter (keyword_tokens doc)).
  assert (Hnd : NoDup (map fst (sort_desc C))).
  { apply (Permutation_NoDup (Permutation_map fst (Permutation_sym (sort_desc_perm C)))).
    unfold C. rewrite counter_keys. apply first_seen_nodup. }
  split; [|split].
  - rewrite <- (firstn_skipn limit (sort_desc C)), map_app in Hnd.
    exact (NoDup_app_remove_r _ _ Hnd).
  - rewrite length_map. apply firstn_le_length.
  - intros k Hk. apply in_map_iff in Hk as (p & <- & Hp).
    apply in_firstn_l in Hp. apply (Permutation_in _ (sort_desc_perm C)) in Hp.
    destruct (counter_entry _ _ Hp) as [_ Hin].
    unfold keyword_tokens in Hin. apply in_map_iff in Hin as (t & Ht & Hin).
    apply filter_In in Hin as [Hin Hf].
    apply andb_true_iff in Hf as [Hf Hlen]. apply andb_true_iff in Hf as [Hf Hpunct].
    apply andb_true_iff in Hf as [Hpos Hstop].
    exists t. split; [exact Hin|]. split; [symmetry; exact Ht|].
    split; [exact (mem_in _ _ Hpos)|].
    split; [apply negb_true_iff; exact Hstop|].
    split; [apply negb_true_iff; exact Hpunct|].
    apply Nat.ltb_lt. exact Hlen.
Qed.


Lemma lookup_some_in {V} (d : list (string * V)) (k : string) (v : V) :
  lookup d k = Some v -> In (k, v) d.
Proof.
  unfold lookup. destruct (find _ d) as [[k0 v0]|] eqn:Hf; simpl; [|discriminate].
  intros H. injection H as <-. apply find_some in Hf as [Hin Heq].
  apply String.eqb_eq in Heq. simpl in Heq. subst. exact Hin.
Qed.

Lemma nth_error_keywords (L : list (string * nat)) (limit i : nat) (a : string) :
  nth_error (map fst (firstn limit L)) i = Some a ->
  exists p, i < limit /\ nth_error L i = Some p /\ a = fst p.
Proof.
  rewrite nth_error_map, nth_error_firstn.
  destruct (Nat.ltb_spec i limit) as [Hlt|Hge]; [|discriminate].
  destruct (nth_error L i) as [p|]; simpl; [|discriminate].
  intros Hp. injection Hp as <-. eauto.
Qed.

(** X7: the keywords are the most frequent qualifying lemmas: they are
    listed by non-increasing number of occurrences, and no qualifying lemma
    left out occurs more often than any keyword. *)
Theorem extract_keywords_most_frequent (doc : NlpDoc) (limit : nat) :
  (forall i j a b, i < j ->
     nth_error (extract_keywords doc limit) i = Some a ->
     nth_error (extract_keywords doc limit) j = Some b ->
     count (keyword_tokens doc) b <= count (keyword_tokens doc) a) /\
  (forall a w, In a (extract_keywords doc limit) -> In w (keyword_tokens doc) ->
     ~ In w (extract_keywords doc limit) ->
     count (keyword_tokens doc) w <= count (keyword_tokens doc) a).
Proof.
  rewrite extract_keywords_eq. unfold most_common.
  set (toks := keyword_tokens doc). set (C := counter toks).
  pose proof (sort_desc_sorted C) as Hss.
  assert (Hcnt : forall i p, nth_error (sort_desc C) i = Some p -> snd p = count toks (fst p)).
  { intros i p Hp. apply nth_error_In in Hp.
    apply (Permutation_in _ (sort_desc_perm C)) in Hp.
    exact (proj1 (counter_entry _ _ Hp)). }
  split.
  - intros i j a b Hij Ha Hb.
    destruct (nth_error_keywords _ _ _ _ Ha) as (p & _ & Hp & ->).
    destruct (nth_error_keywords _ _ _ _ Hb) as (q & _ & Hq & ->).
    rewrite <- (Hcnt i p Hp), <- (Hcnt j q Hq).
    exact (strongly_sorted_nth _ _ _ _ _ _ Hss Hij Hp Hq).
  - intros a w Ha Hw Hnot.
    apply In_nth_error in Ha as [i Ha].
    destruct (nth_error_keywords _ _ _ _ Ha) as (p & Hi & Hp & ->).
    assert (HwC : In (w, count toks w) C).
    { apply lookup_some_in. unfold C. rewrite counter_lookup.
      assert (Hpos : count toks w <> 0)
        by (unfold count; apply (count_occ_In string_dec) in Hw; lia).
      apply Nat.eqb_neq in Hpos. rewrite Hpos. reflexivity. }
    apply (Permutation_in _ (Permutation_sym (sort_desc_perm C))) in HwC.
    apply In_nth_error in HwC as [j Hj].
    destruct (Nat.ltb_spec j limit) as [Hjl|Hjl].
    + exfalso. apply Hnot.
      assert (H : nth_error (firstn limit (sort_desc C)) j = Some (w, count toks w))
        by (rewrite nth_error_firstn; destruct (Nat.ltb_spec j limit); [exact Hj | lia]).
      apply nth_error_In in H. apply (in_map fst) in H. exact H.
    + rewrite <- (Hcnt i p Hp).
      exact (strongly_sorted_nth _ _ i j _ _ Hss ltac:(lia) Hp Hj).
Qed.

Lemma add_entity_keys (d : list (string * list string)) (e : string * string) :
  map fst (add_entity d e) = append_new (map fst d) (fst e).
Proof.
  destruct e as [lab t0]. unfold add_entity, append_new. cbv zeta. cbn [fst snd].
  rewrite <- has_key_mem. destruct (has_key d lab) eqn:Hk.
  - destruct (mem (strip t0) _); [reflexivity | apply set_keys].
  - destruct (mem (strip t0) _); [|rewrite set_keys]; apply map_app.
Qed.

Lemma texts_of_nonempty (L : string) (P : list (string * string)) :
  existsb (fun e => String.eqb (fst e) L) P = true -> texts_of L P <> [].
Proof.
  unfold texts_of. induction P as [|e P IH]; simpl; [discriminate|].
  destruct (String.eqb (fst e) L); simpl; [discriminate | exact IH].
Qed.

(** X8: the entity types appear in the order in which spaCy first reports
    a span of that type, and no type is mapped to an empty list. *)
Theorem extract_entities_types (doc : NlpDoc) :
  map fst (extract_entities doc) = first_seen [] (map fst (doc_ents doc)) /\
  forall L l, In (L, l) (extract_entities doc) -> l <> [].
Proof.
  unfold extract_entities. split.
  - assert (H : forall ents d, map fst (fold_left add_entity ents d) =
                               fold_left append_new (map fst ents) (map fst d)).
    { induction ents as [|e ents IH]; intros d; simpl; [reflexivity|].
      rewrite IH, add_entity_keys. reflexivity. }
    rewrite H. simpl. rewrite fold_append_new. reflexivity.
  - intros L l Hin. destruct (extract_entities_inv (doc_ents doc)) as [Hnd Hl].
    pose proof (lookup_in_nodup _ _ _ Hnd Hin) as Hlk. rewrite Hl in Hlk.
    destruct (existsb _ _) eqn:He; [|discriminate]. injection Hlk as <-.
    rewrite fold_append_new. simpl.
    destruct (texts_of L (doc_ents doc)) as [|x r] eqn:Ht;
      [contradiction (texts_of_nonempty L _ He Ht)|].
    simpl. discriminate.
Qed.

End NlpMore.

(* ------------------------------------------------------------------ *)
(** ** Shape of the texts returned by the summary and chat services *)

Module OutputMore.
Import Summary Rag StrFacts RagFacts Endpoints Pipeline.

(** No leading and no trailing whitespace character. *)
Definition no_outer_space (s : string) : Prop :=
  (forall c r, s = String c r -> is_space c = false) /\
  (forall p c, s = p ++ String c "" -> is_space c = false).

Lemma lstrip_split (s : string) : exists w, s = w ++ lstrip s.
Proof.
  induction s as [|c t [w Hw]]; simpl; [exists ""; reflexivity|].
  destruct (is_space c); [exists (String c w); simpl; congruence | exists ""; reflexivity].
Qed.

Lemma lstrip_head (s : string) (c : ascii) (r : string) :
  lstrip s = String c r -> is_space c = false.
Proof.
  induction s as [|c0 t IH]; simpl; [discriminate|].
  destruct (is_space c0) eqn:Hs; [exact IH|]. intros H. injection H as <- _. exact Hs.
Qed.

Lemma strip_no_outer_space (s : string) : no_outer_space (strip s).
Proof.
  unfold strip, rstrip. set (u := lstrip s).
  destruct (lstrip_split (rev_str u)) as [w Hw].
  assert (Hu : u = (rev_str (lstrip (rev_str u)) ++ rev_str w)%string).
  { rewrite <- rev_str_app, <- Hw, rev_str_involutive. reflexivity. }
  split.
  - intros c r H. rewrite H in Hu. unfold u in Hu. simpl in Hu. exact (lstrip_head _ _ _ Hu).
  - intros p c H. apply (f_equal rev_str) in H.
    rewrite rev_str_involutive, rev_str_app in H. simpl in H.
    exact (lstrip_head _ _ _ H).
Qed.

Lemma no_outer_space_empty : no_outer_space "".
Proof.
  split; [discriminate|]. intros p c H. destruct p; discriminate.
Qed.

Lemma failure_text_stripped : strip failure_text = failure_text.
Proof. vm_compute. reflexivity. Qed.

Lemma apology_stripped : strip apology = apology.
Proof. vm_compute. reflexivity. Qed.

(** X9: [generate_summary] never raises, and the summary it returns
    (empty, the model's answer, or the failure text) never begins or ends
    with a whitespace character. *)
Theorem generate_summary_stripped (E : env) (text : string) (max_tokens : Z)
    (tr : list event) :
  exists s tr', generate_summary E text max_tokens tr = (Ok s, tr') /\ no_outer_space s.
Proof.
  unfold generate_summary, try_except, bind, call, ret.
  destruct (String.eqb (strip text) "").
  - exists "", tr. split; [reflexivity | exact no_outer_space_empty].
  - cbv zeta. destruct (chat_completion E _ _ _ _) as [a|e].
    + eexists _, _. split; [reflexivity | apply strip_no_outer_space].
    + eexists _, _. split; [reflexivity|]. rewrite <- failure_text_stripped.
      apply strip_no_outer_space.
Qed.

Lemma generate_response_stripped (E : env) (q c : string) (tr : list event) :
  exists s tr', generate_response E q c tr = (Ok s, tr') /\ no_outer_space s.
Proof.
  unfold generate_response, try_except, bind, call, ret. cbv zeta.
  destruct (chat_completion E _ _ _ _) as [a|e].
  - eexists _, _. split; [reflexivity | apply strip_no_outer_space].
  - eexists _, _. split; [reflexivity|]. rewrite <- apology_stripped.
    apply strip_no_outer_space.
Qed.

(** X10: the answer text of every chat response never begins or ends with
    a whitespace character (the model's answer is stripped, and the
    apology has none). *)
Theorem chat_response_stripped (E : env) (q : string) (d : option Z) (lim : Z)
    (tr : list event) (r : ChatResponse) :
  fst (chat E q d lim tr) = Ok r -> no_outer_space (response r).
Proof.
  intros H. destruct (chat_unfold E q d lim tr) as (docs & tr1 & s & _ & Hg & Hc).
  rewrite Hc in H. cbn [fst] in H.
  destruct (true_div _ _); [|discriminate]. injection H as <-. cbn [response].
  destruct (generate_response_stripped E q (build_context docs) tr1) as (s' & tr' & Hg' & Hno).
  rewrite Hg in Hg'. injection Hg' as -> _. exact Hno.
Qed.

Lemma chat_response_stripped_witness :
  match fst (chat (Fixtures.search_env [Fixtures.sample_vdoc 1]) "figures" None 5 []) with
  | Ok r => no_outer_space (response r)
  | Raise _ => False
  end.
Proof.
  destruct (fst (chat (Fixtures.search_env [Fixtures.sample_vdoc 1]) "figures" None 5 []))
    as [r|e] eqn:H.
  - exact (chat_response_stripped _ _ _ _ _ _ H).
  - vm_compute in H. discriminate.
Defined.

Lemma length_append (a b : string) : String.length (a ++ b) = String.length a + String.length b.
Proof. induction a as [|c a IH]; simpl; [reflexivity | now rewrite IH]. Qed.

Lemma take_length (n : nat) (s : string) : String.length (take n s) <= n.
Proof.
  unfold take. revert n. induction s as [|c s IH]; intros n; destruct n; simpl; try lia.
  specialize (IH n). lia.
Qed.

(** X11: every source of a chat response has an excerpt of at most 203
    characters that ends with "...". *)
Theorem chat_sources_excerpts (E : env) (q : string) (d : option Z) (lim : Z)
    (tr : list event) (r : ChatResponse) :
  fst (chat E q d lim tr) = Ok r ->
  Forall (fun src => String.length (src_excerpt src) <= 203 /\
                     exists p, src_excerpt src = p ++ "...") (sources r).
Proof.
  intros H. destruct (chat_unfold E q d lim tr) as (docs & tr1 & s & _ & _ & Hc).
  rewrite Hc in H. cbn [fst] in H.
  destruct (true_div _ _); [|discriminate]. injection H as <-. cbn [sources].
  apply Forall_forall. intros src Hin. apply in_map_iff in Hin as (dv & <- & _).
  unfold to_source. cbn [src_excerpt]. split.
  - rewrite length_append. pose proof (take_length 200 (get_or (v_content dv) "")).
    simpl (String.length "..."). lia.
  - eexists. reflexivity.
Qed.

Lemma chat_sources_excerpts_witness :
  match fst (chat (Fixtures.search_env [Fixtures.sample_vdoc 1]) "figures" None 5 []) with
  | Ok r => Forall (fun src => String.length (src_excerpt src) <= 203 /\
                               exists p, src_excerpt src = p ++ "...") (sources r)
  | Raise _ => False
  end.
Proof.
  destruct (fst (chat (Fixtures.search_env [Fixtures.sample_vdoc 1]) "figures" None 5 []))
    as [r|e] eqn:H.
  - exact (chat_sources_excerpts _ _ _ _ _ _ H).
  - vm_compute in H. discriminate.
Defined.

(** X12: at the chat endpoint, [document_id = 0] is falsy: the request
    behaves exactly as one without a document id, searching all
    documents. *)
Theorem chat_with_documents_document_id_zero (E : env) (q : string) (lim : Z)
    (tr : list event) :
  chat_with_documents E q (Some 0%Z) lim tr = chat_with_documents E q None lim tr.
Proof. reflexivity. Qed.

(** X13: at the chat endpoint, [context_limit = 0] always fails with HTTP
    500 "Chat failed: division by zero", whatever the services answer. *)
Theorem chat_with_documents_zero_limit (E : env) (q : string) (d : option Z)
    (tr : list event) :
  fst (chat_with_documents E q d 0 tr) =
  Raise (HTTPException 500 "Chat failed: division by zero").
Proof.
  unfold chat_with_documents, try_except.
  destruct (chat_unfold E q d 0 tr) as (docs & tr1 & s & _ & _ & Hc).
  rewrite Hc. reflexivity.
Qed.

(** X14: [generate_summary] makes no model call for a blank text, and
    otherwise exactly one, whose text is the input itself when it has at
    most 3000 characters, and its first 3000 characters followed by "..."
    when longer; it never sends more than 3003 characters of text. *)
Theorem generate_summary_model_input (E : env) (text : string) (max_tokens : Z)
    (tr : list event) :
  (strip text = "" /\ snd (generate_summary E text max_tokens tr) = tr) \/
  (strip text <> "" /\
   exists t,
     snd (generate_summary E text max_tokens tr) =
       (tr ++ [ModelCall Summary.system_prompt
                 ("Please summarize the following text:" ++ nl ++ nl ++ t)
                 max_tokens (3 # 10)%Q])%list /\
     String.length t <= 3003 /\
     (String.length text <= 3000 -> t = text) /\
     (3000 < String.length text -> t = take 3000 text ++ "...")).
Proof.
  unfold generate_summary, try_except, bind, call, ret.
  destruct (String.eqb_spec (strip text) "") as [He|Hne].
  - left. split; [exact He | reflexivity].
  - right. split; [exact Hne|]. cbv zeta.
    exists (if Nat.ltb 3000 (String.length text) then take 3000 text ++ "..." else text).
    split; [destruct (chat_completion E _ _ _ _); reflexivity|].
    destruct (Nat.ltb_spec 3000 (String.length text)) as [Hl|Hl].
    + split; [rewrite length_append; pose proof (take_length 3000 text);
              simpl (String.length "..."); lia|].
      split; [lia | reflexivity].
    + split; [lia|]. split; [reflexivity | lia].
Qed.

End OutputMore.

(* ------------------------------------------------------------------ *)
(** ** More properties of text extraction and of the endpoints *)

Module ExtractionMore.
Import Ocr OutputMore.

Definition blank_page (p : PdfPage) : bool := String.eqb (strip (page_text p)) "".

Lemma pdf_pages_loop_trace (E : env) (pages : list PdfPage) :
  forall n text tr s tr',
    pdf_pages_loop E n pages text tr = (Ok s, tr') ->
    tr' = (tr ++ map (fun p => OcrCall (page_png p)) (filter blank_page pages))%list.
Proof.
  induction pages as [|pg pages IH]; intros n text tr s tr' H.
  - simpl in H. unfold ret in H. injection H as _ <-. simpl. rewrite app_nil_r. reflexivity.
  - cbn [pdf_pages_loop] in H. cbn [filter]. unfold blank_page at 1.
    destruct (String.eqb (strip (page_text pg)) "").
    + unfold bind, ocr_image, call, ret in H.
      destruct (tesseract E (page_png pg)); [|discriminate].
      apply IH in H. rewrite H, <- app_assoc. reflexivity.
    + exact (IH _ _ _ _ _ H).
Qed.

(** X15: a successful PDF extraction opens the file once and runs OCR
    exactly on the pages whose text is blank, in page order; no other
    external call is made. *)
Theorem extract_from_pdf_ocr_calls (E : env) (content : bytes) (pages : list PdfPage)
    (tr tr' : list event) (s : string) :
  pdf_open E content = Ok pages ->
  extract_from_pdf E content tr = (Ok s, tr') ->
  tr' = (tr ++ PdfOpen content :: map (fun p => OcrCall (page_png p)) (filter blank_page pages))%list.
Proof.
  intros Hp H. unfold extract_from_pdf, bind at 1, call in H. rewrite Hp in H.
  unfold bind in H. destruct (pdf_pages_loop E 0 pages "" _) as [[t|e] t1] eqn:Hl;
    [|discriminate].
  apply pdf_pages_loop_trace in Hl. unfold ret in H. injection H as _ <-.
  rewrite Hl, <- app_assoc. reflexivity.
Qed.

Lemma extract_from_pdf_ocr_calls_witness :
  exists s tr',
    extract_from_pdf Fixtures.pdf_env [] [] = (Ok s, tr') /\
    tr' = [PdfOpen []; OcrCall [Byte.x02]].
Proof.
  destruct (extract_from_pdf Fixtures.pdf_env [] []) as [[s|e] tr'] eqn:H;
    [|vm_compute in H; discriminate].
  exists s, tr'. split; [reflexivity|].
  rewrite (extract_from_pdf_ocr_calls Fixtures.pdf_env [] _ [] tr' s eq_refl H).
  reflexivity.
Defined.

(** X16: Tika output made only of whitespace is not an error: the
    extraction succeeds with the empty text (only an absent or empty
    content raises "No text extracted by Tika"). *)
Theorem extract_with_tika_blank (E : env) (content : bytes) (t : string) (tr : list event) :
  tika E content = Ok (Some t) -> t <> "" -> strip t = "" ->
  extract_with_tika E content tr = (Ok "", tr ++ [TikaCall content])%list.
Proof.
  intros Ht Hne Hs. unfold extract_with_tika, bind, call. rewrite Ht.
  destruct (String.eqb_spec t "") as [He|_]; [contradiction|].
  unfold ret. rewrite Hs. reflexivity.
Qed.

Lemma extract_with_tika_blank_witness :
  extract_with_tika Fixtures.tika_env [] [] = (Ok "", [TikaCall []]).
Proof.
  apply (extract_with_tika_blank Fixtures.tika_env [] (" " ++ nl ++ " ") []);
    [reflexivity | discriminate | vm_compute; reflexivity].
Defined.

End ExtractionMore.

Module EndpointsMore.
Import Pipeline Endpoints PipelineFacts.

(** X17: every failed run of [process_document] raises HTTP 500 with
    detail "Document processing failed: " followed by the message of the
    exception caught, and its last external call is the [PUT] that marks
    the document as "error" with that message. *)
Theorem process_document_failure (E : env) classifier (document_id : Z)
    (tr tr' : list event) (e' : exn) :
  process_document E classifier document_id tr = (Raise e', tr') ->
  exists e pre,
    e' = HTTPException 500 ("Document processing failed: " ++ str_exn e) /\
    tr' = (pre ++ [HttpPut (document_url E document_id) (UpdateError (str_exn e))])%list /\
    update_status (UpdateError (str_exn e)) = "error".
Proof.
  unfold process_document, try_except at 1.
  match goal with
  | |- (match ?m with _ => _ end = _) -> _ => destruct m as [[r0|e] t0] eqn:Hb
  end; intro H; [discriminate|].
  unfold bind, try_except, call, ret, raise in H.
  exists e, t0.
  destruct (api_put E _ _); injection H as <- <-; auto.
Qed.

Lemma process_document_failure_witness :
  exists e' tr',
    process_document Fixtures.offline_env None 7 [] = (Raise e', tr') /\
    exists e pre,
      e' = HTTPException 500 ("Document processing failed: " ++ str_exn e) /\
      tr' = (pre ++ [HttpPut (document_url Fixtures.offline_env 7) (UpdateError (str_exn e))])%list /\
      update_status (UpdateError (str_exn e)) = "error".
Proof.
  destruct (process_document Fixtures.offline_env None 7 []) as [[r|e'] tr'] eqn:H;
    [vm_compute in H; discriminate|].
  exists e', tr'. split; [reflexivity|].
  exact (process_document_failure _ _ _ _ _ _ H).
Defined.

(** X18: a document the API does not return with status 200 is reported
    as HTTP 500 (not 404), with detail "Document processing failed: 404:
    Document not found"; its file is never fetched, and the document is
    marked as "error". *)
Theorem process_document_not_found (E : env) classifier (document_id : Z)
    (tr : list event) (status : Z) (doc : ApiDocument) :
  api_get_document E (document_url E document_id) = Ok (status, doc) ->
  status <> 200%Z ->
  process_document E classifier document_id tr =
    (Raise (HTTPException 500 "Document processing failed: 404: Document not found"),
     tr ++ [HttpGet (document_url E document_id);
            HttpPut (document_url E document_id) (UpdateError "404: Document not found")])%list.
Proof.
  intros Hget Hst. unfold process_document, try_except, bind, call, raise, ret.
  rewrite Hget. apply Z.eqb_neq in Hst. rewrite Hst. cbn [negb].
  destruct (api_put E _ _); rewrite <- app_assoc; reflexivity.
Qed.

Lemma process_document_not_found_witness :
  process_document Fixtures.missing_env None 7 [] =
    (Raise (HTTPException 500 "Document processing failed: 404: Document not found"),
     [HttpGet "http://localhost:8000/documents/7";
      HttpPut "http://localhost:8000/documents/7" (UpdateError "404: Document not found")]).
Proof.
  eapply (process_document_not_found Fixtures.missing_env None 7 [] 404%Z);
    [reflexivity | discriminate].
Defined.

(** X19: at the [/analyze/text] endpoint, a failing spaCy call gives HTTP
    500 "Analysis failed: " followed by the error message, and the
    language model is never called. *)
Theorem analyze_text_endpoint_nlp_failure (E : env) classifier (text : string)
    (tr : list event) (e : exn) :
  spacy E (Nlp.detect_language text) (take Nlp.max_text_length text) = Raise e ->
  Endpoints.analyze_text E classifier text tr =
    (Raise (HTTPException 500 ("Analysis failed: " ++ str_exn e)),
     tr ++ [NlpCall (Nlp.detect_language text) (take Nlp.max_text_length text)])%list.
Proof.
  intros H. unfold Endpoints.analyze_text, Nlp.analyze_text, try_except, bind, call, raise.
  rewrite H. reflexivity.
Qed.

Lemma analyze_text_endpoint_nlp_failure_witness :
  exists e,
    spacy Fixtures.offline_env (Nlp.detect_language "Hello") (take Nlp.max_text_length "Hello") = Raise e /\
    Endpoints.analyze_text Fixtures.offline_env None "Hello" [] =
      (Raise (HTTPException 500 ("Analysis failed: " ++ str_exn e)),
       [] ++ [NlpCall (Nlp.detect_language "Hello") (take Nlp.max_text_length "Hello")])%list.
Proof.
  eexists. split; [reflexivity|].
  apply analyze_text_endpoint_nlp_failure. reflexivity.
Defined.

End EndpointsMore.
